(** * pyunifiprotect: the websocket frame decoder and the event state machine

    A shallow embedding of [src/pyunifiprotect/unifi_data.py]:
    - [Float64]   : Python's float conversions, true division and [round(x, 3)];
    - [Frame]     : [ProtectWSPayloadFormat] and [decode_ws_frame];
    - [Inflate]   : zlib's [decompress], to run the decoder on real streams;
    - [Json]      : the JSON values and dicts the event code reads;
    - [Projector] : [process_event];
    - [Store]     : [FixSizeOrderedDict] and [ProtectStateMachine];
    - [Ingest]    : [event_from_ws_frames];
    - [Camera]    : [process_camera].
    Python exceptions are the [Error] branch of a small result type. *)

From Stdlib Require Import ZArith Lia.
From Stdlib Require PrimFloat Uint63.
From stdpp Require Import base gmap strings list.

Open Scope Z_scope.

(** Python's outcome of a call: a value, or a raised exception. *)
Inductive py_error :=
  | StructError          (* struct.error *)
  | ZlibError            (* zlib.error *)
  | ValueError           (* ValueError, also from an Enum lookup *)
  | TypeError            (* TypeError, e.g. float(None) *)
  | KeyError             (* KeyError of d[k] *)
  | OverflowError        (* OverflowError, e.g. float(10 ** 400) *)
  | OSError              (* OSError, e.g. from datetime.fromtimestamp *)
  | Unmodelled.          (* a Python behaviour this development leaves out *)

Inductive result (A : Type) :=
  | Ok (a : A)
  | Error (e : py_error).
Arguments Ok {A} a.
Arguments Error {A} e.

Definition bind {A B} (r : result A) (k : A -> result B) : result B :=
  match r with Ok a => k a | Error e => Error e end.

Notation "'let*' x ':=' r 'in' k" := (bind r (fun x => k))
  (at level 200, x name, r at level 100, k at level 200).

(** Python slicing [l[i:j]] on a sequence, with negative indices counted
    from the end and both bounds clamped to the sequence. *)
Definition py_index (n i : Z) : Z :=
  if i <? 0 then Z.max 0 (n + i) else Z.min i n.

Definition py_slice {A} (l : list A) (i j : Z) : list A :=
  let n := Z.of_nat (length l) in
  let i' := py_index n i in
  let j' := py_index n j in
  firstn (Z.to_nat (j' - i')) (skipn (Z.to_nat i') l).

(** ** Python floats

    Python's [float] is an IEEE double, the primitive [float] of Rocq. *)
Module Float64.

Abbreviation float := PrimFloat.float.

(** The double holding the integer [n], for [0 <= n < 2^53]. *)
Definition of_small (n : Z) : float := PrimFloat.of_uint63 (Uint63.of_Z n).

(** The double [m * 2^e], for [0 <= m <= 2^53] and [-1074 <= e]. *)
Definition scale (m e : Z) : float :=
  PrimFloat.ldshiftexp (PrimFloat.of_uint63 (Uint63.of_Z m)) (Uint63.of_Z (e + 2101)).

(** [a / b] rounded to the nearest integer, ties to even ([a >= 0], [b > 0]). *)
Definition round_div_even (a b : Z) : Z :=
  let q := a / b in
  let r := a mod b in
  if (b <? 2 * r) || ((2 * r =? b) && Z.odd q) then q + 1 else q.

(** [p / q >= 2^k], for [p >= 0], [q > 0]. *)
Definition ratio_ge_pow (p q k : Z) : bool :=
  if 0 <=? k then q * 2 ^ k <=? p else q <=? p * 2 ^ (- k).

(** The double nearest to [p / q] ([p >= 0], [q > 0]), ties to even;
    [None] when it is [2^1024] or more, where Python raises OverflowError. *)
Definition nearest_ratio (p q : Z) : option float :=
  if p =? 0 then Some PrimFloat.zero else
  let e0 := Z.log2 p - Z.log2 q - 53 in
  let e1 := if ratio_ge_pow p q (e0 + 53) then e0 + 1 else e0 in
  let e := Z.max e1 (-1074) in
  let m := if 0 <=? e then round_div_even p (q * 2 ^ e)
           else round_div_even (p * 2 ^ (- e)) q in
  if m =? 0 then Some PrimFloat.zero
  else if 1024 <=? Z.log2 m + e then None
  else Some (scale m e).

(** The signed quotient: [-(|p| / q)] for a negative [p]. *)
Definition signed_ratio (p q : Z) : option float :=
  if p <? 0 then option_map PrimFloat.opp (nearest_ratio (- p) q)
  else nearest_ratio p q.

(** [float(n)] for a Python int. *)
Definition of_int (n : Z) : option float := signed_ratio n 1.

(** [a / b] for Python ints, [b > 0]: the correctly rounded quotient. *)
Definition int_truediv (a b : Z) : option float := signed_ratio a b.

(** A finite, non-zero double as [|x| = M * 2^E], [2^52 <= M < 2^53]. *)
Definition exact (x : float) : Z * Z :=
  let '(m, e) := PrimFloat.frshiftexp x in
  (Uint63.to_Z (PrimFloat.normfr_mantissa (PrimFloat.abs m)), Uint63.to_Z e - 2101 - 53).

(** [round(x, 3)]: CPython rounds the exact binary value to 3 decimals
    (ties to even) and reads the decimal back as the nearest double;
    infinities, nan and zeros are returned as they are, and a value
    rounding to zero keeps the sign of [x]. *)
Definition round3 (x : float) : float :=
  if negb (PrimFloat.is_finite x) || PrimFloat.is_zero x then x else
  let '(M, E) := exact x in
  let k := if 0 <=? E then M * 2 ^ E * 1000
           else round_div_even (M * 1000) (2 ^ (- E)) in
  let r := match nearest_ratio k 1000 with Some f => f | None => PrimFloat.infinity end in
  if PrimFloat.get_sign x then PrimFloat.opp r else r.

End Float64.

Module Frame.

Definition WS_HEADER_SIZE : Z := 8.

(** [ProtectWSPayloadFormat]: an [enum.Enum] looked up by value. *)
Inductive ProtectWSPayloadFormat := JSON | UTF8String | NodeBuffer.

Definition format_value (f : ProtectWSPayloadFormat) : Z :=
  match f with JSON => 1 | UTF8String => 2 | NodeBuffer => 3 end.

(** [ProtectWSPayloadFormat(v)]: raises ValueError for an unknown value. *)
Definition ProtectWSPayloadFormat_of (v : Z) : result ProtectWSPayloadFormat :=
  if v =? 1 then Ok JSON
  else if v =? 2 then Ok UTF8String
  else if v =? 3 then Ok NodeBuffer
  else Error ValueError.

Definition ubyte (b : Byte.byte) : Z := Z.of_N (Byte.to_N b).

(** struct format [b]: a signed 8-bit integer. *)
Definition s8 (b : Byte.byte) : Z :=
  let u := ubyte b in if u <? 128 then u else u - 256.

(** struct format [!i]: a big-endian signed 32-bit integer. *)
Definition be_i32 (b0 b1 b2 b3 : Byte.byte) : Z :=
  let u := ubyte b0 * 16777216 + ubyte b1 * 65536 + ubyte b2 * 256 + ubyte b3 in
  if u <? 2147483648 then u else u - 4294967296.

(** [struct.unpack("!bbbbi", h)]: needs exactly 8 bytes. *)
Definition unpack_header (h : list Byte.byte) : result (Z * Z * Z * Z * Z) :=
  match h with
  | [b0; b1; b2; b3; b4; b5; b6; b7] =>
      Ok (s8 b0, s8 b1, s8 b2, s8 b3, be_i32 b4 b5 b6 b7)
  | _ => Error StructError
  end.

Section Decode.
(** [zlib.decompress], an external library: [None] is a [zlib.error]. *)
Variable zlib_decompress : list Byte.byte -> option (list Byte.byte).

Definition decode_ws_frame (frame : list Byte.byte) (position : Z)
  : result (list Byte.byte * ProtectWSPayloadFormat * Z) :=
  let* hdr := unpack_header (py_slice frame position (position + WS_HEADER_SIZE)) in
  let '(_, payload_format, deflated, _, payload_size) := hdr in
  let position := position + WS_HEADER_SIZE in
  let frame := py_slice frame position (position + payload_size) in
  let* frame := (if negb (deflated =? 0) then
              match zlib_decompress frame with
              | Some f => Ok f
              | None => Error ZlibError
              end
            else Ok frame) in
  let position := position + payload_size in
  let* fmt := ProtectWSPayloadFormat_of payload_format in
  Ok (frame, fmt, position).
End Decode.

(** Concrete byte strings for examples. *)
Definition bytes_of (l : list Z) : list Byte.byte :=
  map (fun z => match Byte.of_N (Z.to_N z) with Some b => b | None => Byte.x00 end) l.

End Frame.

(** ** zlib's [decompress], after RFC 1950 (the zlib format) and RFC 1951
    (DEFLATE), in the manner of zlib's [puff.c]. It is an instance of the
    [zlib_decompress] parameter of [decode_ws_frame]: [None] is
    [zlib.error]. Data after the end of the stream is ignored, as
    [zlib.decompress] does. *)
Module Inflate.

Local Notation "'let?' p ':=' m 'in' k" :=
  (match m with Some p => k | None => None end)
  (at level 200, p pattern, m at level 100, k at level 200).

Definition byte_Z (b : Byte.byte) : Z := Z.of_N (Byte.to_N b).

Definition byte_of_Z (z : Z) : Byte.byte :=
  match Byte.of_N (Z.to_N z) with Some b => b | None => Byte.x00 end.

(** The input as bits, least significant bit of each byte first. *)
Definition bits_of_byte (b : Byte.byte) : list bool :=
  map (fun i => Z.testbit (byte_Z b) (Z.of_nat i)) (seq 0 8).

Record bitstream := { rest : list bool; used : nat }.

Definition getbit (s : bitstream) : option (bool * bitstream) :=
  match rest s with
  | [] => None
  | b :: r => Some (b, {| rest := r; used := S (used s) |})
  end.

Fixpoint getbits_from (n : nat) (sh acc : Z) (s : bitstream) : option (Z * bitstream) :=
  match n with
  | O => Some (acc, s)
  | S n' =>
      let? (b, s') := getbit s in
      getbits_from n' (sh + 1) (if b then Z.lor acc (Z.shiftl 1 sh) else acc) s'
  end.

(** [n] bits, the first one least significant. *)
Definition getbits (n : Z) (s : bitstream) : option (Z * bitstream) :=
  getbits_from (Z.to_nat n) 0 0 s.

(** Skip to the next byte boundary. *)
Definition align (s : bitstream) : bitstream :=
  let k := ((8 - used s mod 8) mod 8)%nat in
  {| rest := drop k (rest s); used := (used s + k)%nat |}.

(** A canonical Huffman code: the number of codes of each length
    0..15, and the symbols ordered by code. *)
Record huffman := { hcount : list Z; hsymbol : list Z }.

Definition construct (lengths : list Z) : huffman :=
  {| hcount := map (fun l => Z.of_nat (length (filter (fun x => x =? Z.of_nat l) lengths)))
                   (seq 0 16);
     hsymbol := mjoin (map (fun l =>
                  map (fun i => Z.of_nat i)
                    (filter (fun i => nth i lengths 0 =? Z.of_nat l) (seq 0 (length lengths))))
                  (seq 1 15)) |}.

(** Codes left unused: negative for an over-subscribed set, positive for
    an incomplete one. *)
Definition code_left (h : huffman) : Z :=
  fold_left (fun left len => 2 * left - nth len (hcount h) 0) (seq 1 15) 1.

Definition max_length (h : huffman) : Z :=
  fold_left (fun m len => if 0 <? nth len (hcount h) 0 then Z.of_nat len else m) (seq 1 15) 0.

Fixpoint decode_from (n : nat) (len code first index : Z) (h : huffman) (s : bitstream)
  : option (Z * bitstream) :=
  match n with
  | O => None
  | S n' =>
      let? (b, s) := getbit s in
      let code := code + (if b then 1 else 0) in
      let count := nth (Z.to_nat len) (hcount h) 0 in
      if code - count <? first then Some (nth (Z.to_nat (index + (code - first))) (hsymbol h) 0, s)
      else decode_from n' (len + 1) (2 * code) (2 * (first + count)) (index + count) h s
  end.

Definition decode (h : huffman) (s : bitstream) : option (Z * bitstream) :=
  decode_from 15 1 0 0 0 h s.

Definition lbase : list Z := [3;4;5;6;7;8;9;10;11;13;15;17;19;23;27;31;35;43;51;59;
  67;83;99;115;131;163;195;227;258].
Definition lext : list Z := [0;0;0;0;0;0;0;0;1;1;1;1;2;2;2;2;3;3;3;3;4;4;4;4;5;5;5;5;0].
Definition dbase : list Z := [1;2;3;4;5;7;9;13;17;25;33;49;65;97;129;193;257;385;513;
  769;1025;1537;2049;3073;4097;6145;8193;12289;16385;24577].
Definition dext : list Z := [0;0;0;0;1;1;2;2;3;3;4;4;5;5;6;6;7;7;8;8;9;9;10;10;11;11;
  12;12;13;13].

(** Copy [len] bytes from [dist] back; [out] is the output reversed. *)
Fixpoint copy (len : nat) (dist : Z) (out : list Byte.byte) : list Byte.byte :=
  match len with
  | O => out
  | S len' => copy len' dist (nth (Z.to_nat (dist - 1)) out Byte.x00 :: out)
  end.

(** The literal/length and distance symbols of a block, up to the end
    of block. *)
Fixpoint codes (n : nat) (lencode distcode : huffman) (s : bitstream) (out : list Byte.byte)
  : option (bitstream * list Byte.byte) :=
  match n with
  | O => None
  | S n' =>
      let? (sym, s) := decode lencode s in
      if sym <? 256 then codes n' lencode distcode s (byte_of_Z sym :: out)
      else if sym =? 256 then Some (s, out)
      else
        let sym := sym - 257 in
        if 29 <=? sym then None else
        let? (e, s) := getbits (nth (Z.to_nat sym) lext 0) s in
        let len := nth (Z.to_nat sym) lbase 0 + e in
        let? (dsym, s) := decode distcode s in
        if 30 <=? dsym then None else
        let? (e, s) := getbits (nth (Z.to_nat dsym) dext 0) s in
        let dist := nth (Z.to_nat dsym) dbase 0 + e in
        if Z.of_nat (length out) <? dist then None
        else codes n' lencode distcode s (copy (Z.to_nat len) dist out)
  end.

Fixpoint stored_bytes (n : nat) (s : bitstream) (out : list Byte.byte)
  : option (bitstream * list Byte.byte) :=
  match n with
  | O => Some (s, out)
  | S n' => let? (b, s) := getbits 8 s in stored_bytes n' s (byte_of_Z b :: out)
  end.

Definition stored (s : bitstream) (out : list Byte.byte) : option (bitstream * list Byte.byte) :=
  let s := align s in
  let? (len, s) := getbits 16 s in
  let? (nlen, s) := getbits 16 s in
  if negb (Z.lxor len nlen =? 65535) then None
  else stored_bytes (Z.to_nat len) s out.

Definition fixed_lencode : huffman :=
  construct (replicate 144 8 ++ replicate 112 9 ++ replicate 24 7 ++ replicate 8 8).
Definition fixed_distcode : huffman := construct (replicate 30 5).

Fixpoint read_code_lengths (n : nat) (order : list nat) (s : bitstream) (lengths : list Z)
  : option (list Z * bitstream) :=
  match n, order with
  | S n', i :: order' =>
      let? (l, s) := getbits 3 s in read_code_lengths n' order' s (<[i := l]> lengths)
  | _, _ => Some (lengths, s)
  end.

(** The literal/length and distance code lengths, read with the code
    length code; [acc] is reversed. *)
Fixpoint read_lengths (n : nat) (total : Z) (lencode : huffman) (s : bitstream) (acc : list Z)
  : option (list Z * bitstream) :=
  match n with
  | O => None
  | S n' =>
      if total <=? Z.of_nat (length acc) then Some (rev acc, s) else
      let? (sym, s) := decode lencode s in
      if sym <? 16 then read_lengths n' total lencode s (sym :: acc) else
      let? (len, rep, s) := (if sym =? 16 then
           match acc with
           | [] => None
           | prev :: _ => let? (r, s) := getbits 2 s in Some (prev, 3 + r, s)
           end
         else if sym =? 17 then let? (r, s) := getbits 3 s in Some (0, 3 + r, s)
         else let? (r, s) := getbits 7 s in Some (0, 11 + r, s)) in
      if total <? Z.of_nat (length acc) + rep then None
      else read_lengths n' total lencode s (replicate (Z.to_nat rep) len ++ acc)
  end.

Definition order : list nat := [16;17;18;0;8;7;9;6;10;5;11;4;12;3;13;2;14;1;15]%nat.

(** zlib's [inflate_table] checks: over-subscribed sets fail; incomplete
    ones are accepted only for a single code of length 1. *)
Definition code_ok (h : huffman) : bool :=
  let left := code_left h in
  (0 <=? left) && ((left =? 0) || (max_length h <=? 1)).

Definition dynamic (s : bitstream) (out : list Byte.byte) : option (bitstream * list Byte.byte) :=
  let? (nlen, s) := getbits 5 s in
  let? (ndist, s) := getbits 5 s in
  let? (ncode, s) := getbits 4 s in
  let nlen := nlen + 257 in
  let ndist := ndist + 1 in
  let ncode := ncode + 4 in
  if (286 <? nlen) || (30 <? ndist) then None else
  let? (cl, s) := read_code_lengths (Z.to_nat ncode) order s (replicate 19 0) in
  let clcode := construct cl in
  if negb (code_left clcode =? 0) then None else
  let? (lengths, s) := read_lengths (length (rest s) + 1) (nlen + ndist) clcode s [] in
  if nth 256 lengths 0 =? 0 then None else
  let lencode := construct (take (Z.to_nat nlen) lengths) in
  let distcode := construct (drop (Z.to_nat nlen) lengths) in
  if negb (code_ok lencode && code_ok distcode) then None else
  codes (length (rest s) + 1) lencode distcode s out.

Fixpoint blocks (n : nat) (s : bitstream) (out : list Byte.byte)
  : option (bitstream * list Byte.byte) :=
  match n with
  | O => None
  | S n' =>
      let? (last, s) := getbits 1 s in
      let? (type, s) := getbits 2 s in
      let? (s, out) := (if type =? 0 then stored s out
         else if type =? 1 then codes (length (rest s) + 1) fixed_lencode fixed_distcode s out
         else if type =? 2 then dynamic s out
         else None) in
      if last =? 1 then Some (s, out) else blocks n' s out
  end.

Definition adler32 (l : list Byte.byte) : Z :=
  let '(a, b) := fold_left (fun ab x =>
    let a := (ab.1 + byte_Z x) mod 65521 in (a, (ab.2 + a) mod 65521)) l (1, 0) in
  b * 65536 + a.

Definition zlib_decompress (data : list Byte.byte) : option (list Byte.byte) :=
  match data with
  | cmf :: flg :: body =>
      let c := byte_Z cmf in
      let f := byte_Z flg in
      if negb ((c * 256 + f) mod 31 =? 0) then None
      else if negb (Z.land c 15 =? 8) then None
      else if 7 <? Z.shiftr c 4 then None
      else if Z.testbit f 5 then None
      else
        let s := {| rest := mjoin (map bits_of_byte body); used := 0 |} in
        let? (s, out) := blocks (length (rest s) + 1) s [] in
        let s := align s in
        let? (b0, s) := getbits 8 s in
        let? (b1, s) := getbits 8 s in
        let? (b2, s) := getbits 8 s in
        let? (b3, s) := getbits 8 s in
        let out := rev out in
        if adler32 out =? b0 * 16777216 + b1 * 65536 + b2 * 256 + b3 then Some out else None
  | _ => None
  end.

End Inflate.

(** A data frame payload of the docstring's shape, and the stream
    [zlib.compress] (level 9) makes of it. *)
Module FrameSamples.
Import Frame.

Definition motion_json : list Byte.byte := bytes_of
  [123;34;116;121;112;101;34;58;34;109;111;116;105;111;110;34;44;34;115;116;
   97;114;116;34;58;49;54;48;54;54;56;52;57;57;51;50;56;51;44;34;
   115;109;97;114;116;68;101;116;101;99;116;84;121;112;101;115;34;58;91;93;
   44;34;115;109;97;114;116;68;101;116;101;99;116;69;118;101;110;116;115;34;
   58;91;93;44;34;99;97;109;101;114;97;34;58;34;53;102;98;53;97;57;
   97;49;48;48;49;98;56;57;48;51;101;55;48;48;49;97;53;51;34;125].

Definition motion_json_zlib : list Byte.byte := bytes_of
  [120;218;171;86;42;169;44;72;85;178;82;202;205;47;201;204;207;83;210;81;
   42;46;73;44;42;81;178;50;52;51;48;51;179;48;177;180;52;54;178;48;
   6;138;230;2;69;93;82;75;82;147;75;66;128;26;138;149;172;162;99;81;
   68;93;203;82;243;74;160;194;201;137;185;169;69;137;64;67;77;211;146;76;
   19;45;19;13;13;12;12;147;44;44;13;140;83;205;129;172;68;83;99;165;
   90;0;22;24;37;92].

End FrameSamples.

Module Json.

(** The JSON values the event bodies carry (objects do not occur as
    field values the event code reads). *)
Local Set Warnings "-register-all".
Inductive jval :=
  | JNull
  | JBool (b : bool)
  | JInt (z : Z)
  | JStr (s : string)
  | JList (l : list jval).

(** A Python dict decoded from a JSON object. *)
Abbreviation dict := (gmap string jval).

(** [d.get(k)]: [None] when the key is missing. *)
Definition get (d : dict) (k : string) : jval :=
  match d !! k with Some v => v | None => JNull end.

(** [d[k]]: raises KeyError when the key is missing. *)
Definition getitem (d : dict) (k : string) : result jval :=
  match d !! k with Some v => Ok v | None => Error KeyError end.

(** Python truthiness, [bool(v)]. *)
Definition truthy (v : jval) : bool :=
  match v with
  | JNull => false
  | JBool b => b
  | JInt z => negb (z =? 0)
  | JStr s => negb (String.eqb s "")
  | JList l => negb (Nat.eqb (length l) 0)
  end.

(** [int(v)] on a JSON value. A numeric string ("12") is parsed by
    Python; that case is not modelled. *)
Definition py_number (v : jval) : result Z :=
  match v with
  | JInt z => Ok z
  | JBool b => Ok (if b then 1 else 0)
  | JStr _ => Error Unmodelled
  | JNull | JList _ => Error TypeError
  end.

(** [v >= n] for an int [n]: only numbers (and bools) compare. *)
Definition py_ge (v : jval) (n : Z) : result bool :=
  match v with
  | JInt z => Ok (n <=? z)
  | JBool b => Ok (n <=? if b then 1 else 0)
  | _ => Error TypeError
  end.

Definition is_str (v : jval) (s : string) : bool :=
  match v with JStr t => String.eqb t s | _ => false end.

End Json.

Module Projector.
Import Json.

Definition EVENT_SMART_DETECT_ZONE : string := "smartDetectZone".
Definition EVENT_MOTION : string := "motion".
Definition EVENT_RING : string := "ring".
Definition LIVE_RING_FROM_WEBSOCKET : Z := -1.

(** The numbers the dict holds: [event_length] is the int [0] or a float. *)
Inductive py_num :=
  | PInt (z : Z)
  | PFloat (f : Float64.float).

(** The dict [process_event] returns. A key that only some branches set
    is an option ([None]: the key is absent). [event_start],
    [last_motion] and [last_ring] hold the date strings of
    [_process_timestamp]. *)
Record processed := {
  event_on : bool;
  event_ring_on : bool;
  event_type : jval;
  event_start : option string;
  event_length : py_num;
  event_score : jval;
  event_object : jval;
  last_motion : option (option string);
  last_ring : option (option string);
  event_thumbnail : option jval;
  event_heatmap : option jval
}.

(** [float(v)] on a JSON value: an int is rounded to the nearest double,
    and raises OverflowError from [2^1024] on. *)
Definition py_float (v : jval) : result Float64.float :=
  let* n := py_number v in
  match Float64.of_int n with Some f => Ok f | None => Error OverflowError end.

(** [round((float(end) / 1000) - (float(start) / 1000), 3)] from
    [float(end)] and [float(start)]: [/ 1000] divides by the double 1000.0. *)
Definition length_seconds (fe fs : Float64.float) : Float64.float :=
  Float64.round3 (PrimFloat.sub (PrimFloat.div fe (Float64.of_small 1000))
                                (PrimFloat.div fs (Float64.of_small 1000))).

Section Process.

(** [datetime.datetime.fromtimestamp(t).strftime("%Y-%m-%d %H:%M:%S")] on
    a float of seconds: the text depends on the local time zone, and the
    range on the platform (out of it, it raises ValueError, OverflowError
    or OSError). *)
Variable fromtimestamp : Float64.float -> result string.

(** [_process_timestamp]: [int(time_stamp) / 1000] is the correctly
    rounded quotient, and raises OverflowError when it exceeds the
    doubles. *)
Definition _process_timestamp (time_stamp : jval) : result string :=
  let* ms := py_number time_stamp in
  match Float64.int_truediv ms 1000 with
  | Some t => fromtimestamp t
  | None => Error OverflowError
  end.

Definition process_event (event : dict) (minimum_score ring_interval : Z)
  : result processed :=
  let start := get event "start" in
  let end_ := get event "end" in
  let event_type := get event "type" in
  let score := get event "score" in
  let* start_time :=
    (if truthy start then let* s := _process_timestamp start in Ok (Some s) else Ok None) in
  let* event_length :=
    (if truthy end_ then
       let* fe := py_float end_ in
       let* fs := py_float start in
       Ok (PFloat (length_seconds fe fs))
     else Ok (PInt 0)) in
  let* branch :=
    (if is_str event_type EVENT_MOTION || is_str event_type EVENT_SMART_DETECT_ZONE then
       let* on :=
         (match score with
          | JNull => Ok false
          | _ => let* s := py_number score in Ok (minimum_score <=? s)
          end) in
       Ok (on, false, Some start_time, None)
     else
       let* ring_on :=
         (if (ring_interval =? LIVE_RING_FROM_WEBSOCKET) || negb (truthy end_) then Ok true
          else
            let* a := py_ge start ring_interval in
            if a then py_ge end_ ring_interval else Ok false) in
       Ok (false, ring_on, None, Some start_time)) in
  let '(on, ring_on, lm, lr) := branch in
  let thumbail := get event "thumbnail" in
  let heatmap := get event "heatmap" in
  Ok {| event_on := on;
        event_ring_on := ring_on;
        event_type := event_type;
        event_start := start_time;
        event_length := event_length;
        event_score := score;
        event_object := get event "smartDetectTypes";
        last_motion := lm;
        last_ring := lr;
        event_thumbnail := match thumbail with JNull => None | v => Some v end;
        event_heatmap := match heatmap with JNull => None | v => Some v end |}.

End Process.

End Projector.

Module Store.
Import Json.

Definition MAX_SUPPORTED_CAMERAS : Z := 256.
Definition MAX_EVENT_HISTORY_IN_STATE_MACHINE : Z := MAX_SUPPORTED_CAMERAS * 2.

(** An [OrderedDict] from event ids to event dicts: its items in
    insertion order, each key once. *)
Abbreviation odict := (list (string * dict)).

Definition keys (d : odict) : list string := map fst d.

(** [d.get(k)]: lookups read the items and leave them as they are. *)
Fixpoint od_get (d : odict) (k : string) : option dict :=
  match d with
  | [] => None
  | (k', v) :: d' => if String.eqb k' k then Some v else od_get d' k
  end.

Definition od_mem (d : odict) (k : string) : bool :=
  existsb (fun kv => String.eqb kv.1 k) d.

(** Replace the value of an existing key where it stands. *)
Definition od_assign (d : odict) (k : string) (v : dict) : odict :=
  map (fun kv => if String.eqb kv.1 k then (k, v) else kv) d.

(** [OrderedDict.__setitem__]: an existing key keeps its place, a new
    key goes last. *)
Definition od_setitem (d : odict) (k : string) (v : dict) : odict :=
  if od_mem d k then od_assign d k v else d ++ [(k, v)].

(** [popitem(False)]: remove the first (oldest) item. *)
Definition od_popitem_first (d : odict) : odict := tail d.

(** [FixSizeOrderedDict.__setitem__] with its [_max_size]. *)
Definition fix_setitem (max_size : Z) (d : odict) (k : string) (v : dict) : odict :=
  let d := od_setitem d k v in
  if 0 <? max_size then
    if max_size <? Z.of_nat (length d) then od_popitem_first d else d
  else d.

(** [ProtectStateMachine]: [_events] is a [FixSizeOrderedDict] of
    [MAX_EVENT_HISTORY_IN_STATE_MACHINE] items, empty at [__init__]. *)
Definition sm_init : odict := [].

Definition sm_add (events : odict) (event_id : string) (event_json : dict) : odict :=
  fix_setitem MAX_EVENT_HISTORY_IN_STATE_MACHINE events event_id event_json.

(** [ProtectStateMachine.update]: [event_json.update(new_event_json)]
    mutates the stored dict in place (the new body's keys win) and
    returns that same dict. *)
Definition sm_update (events : odict) (event_id : string) (new_event_json : dict)
  : odict * option dict :=
  match od_get events event_id with
  | None => (events, None)
  | Some event_json =>
      let merged := new_event_json ∪ event_json in
      (od_assign events event_id merged, Some merged)
  end.

(** A sequence of [add] calls. *)
Definition sm_add_all (events : odict) (adds : list (string * dict)) : odict :=
  fold_left (fun s kv => sm_add s kv.1 kv.2) adds events.

End Store.

Module Ingest.
Import Json Projector Store.

(** Event ids are JSON strings in the protocol; another value as id is
    outside the model. *)
Definition as_key (v : jval) : result string :=
  match v with JStr s => Ok s | _ => Error Unmodelled end.

(** [event_from_ws_frames]: the new store, and the outcome. [Ok None] is
    the [(None, None)] return; [Ok (Some (camera_id, processed))] the
    other. The store is returned also when [process_event] raises, since
    the add or the in-place merge has already happened then. *)
Section Ingestion.

(** The date formatting of [process_event]. *)
Variable fromtimestamp : Float64.float -> result string.

Definition event_from_ws_frames (state_machine : odict) (minimum_score : Z)
  (action_json data_json : dict) : odict * result (option (jval * processed)) :=
  match getitem action_json "modelKey" with
  | Error e => (state_machine, Error e)
  | Ok mk =>
  if negb (is_str mk "event") then (state_machine, Error ValueError) else
  match getitem action_json "action", getitem action_json "id" with
  | Error e, _ => (state_machine, Error e)
  | Ok _, Error e => (state_machine, Error e)
  | Ok action, Ok event_id =>
  let step :=
    (if is_str action "add" then
       let camera_id := get data_json "camera" in
       match camera_id with
       | JNull => Ok (state_machine, None)
       | _ =>
           let* k := as_key event_id in
           Ok (sm_add state_machine k data_json, Some (camera_id, data_json))
       end
     else if is_str action "update" then
       let* k := as_key event_id in
       let '(sm', event) := sm_update state_machine k data_json in
       match event with
       | None => Ok (sm', None)
       | Some ev =>
           if bool_decide (ev = ∅) then Ok (sm', None)
           else Ok (sm', Some (get ev "camera", ev))
       end
     else Error ValueError) in
  match step with
  | Error e => (state_machine, Error e)
  | Ok (sm', None) => (sm', Ok None)
  | Ok (sm', Some (camera_id, event)) =>
      (sm', let* pe := process_event fromtimestamp event minimum_score
                         LIVE_RING_FROM_WEBSOCKET in
            Ok (Some (camera_id, pe)))
  end
  end
  end.

End Ingestion.

End Ingest.

(** Concrete events and envelopes, in the shape of the docstring of
    [event_from_ws_frames]. *)
Module Samples.
Import Json.

(** A motion event of the docstring, ended: start 1000, end 2000, score 80. *)
Definition ended_motion : dict :=
  <["type" := JStr "motion"]> (<["start" := JInt 1000]>
    (<["end" := JInt 2000]> (<["score" := JInt 80]> ∅))).

(** A doorbell ring of the docstring's shape, ended: start 1000, end 1500. *)
Definition ended_ring : dict :=
  <["type" := JStr "ring"]> (<["start" := JInt 1000]>
    (<["end" := JInt 1500]> (<["camera" := JStr "c1"]> ∅))).

(** A ring whose [start] is 0 and whose [end] is 1000. *)
Definition zero_start_ring : dict :=
  <["type" := JStr "ring"]> (<["start" := JInt 0]> (<["end" := JInt 1000]> ∅)).

(** A stand-in for the local-time formatter of [_process_timestamp]: it
    gives every time the same date. *)
Definition sample_fromtimestamp : Float64.float -> result string :=
  fun _ => Ok "2020-11-29 21:23:13".

(** A ring for camera "c1" with an end and no start. *)
Definition headless_ring : dict :=
  <["type" := JStr "ring"]> (<["end" := JInt 1500]> (<["camera" := JStr "c1"]> ∅)).

(** The action envelope of an add of event [e2]. *)
Definition add_e2 : dict :=
  <["modelKey" := JStr "event"]> (<["action" := JStr "add"]> (<["id" := JStr "e2"]> ∅)).

End Samples.

Module Camera.
Local Set Warnings "-register-all".

(** The camera JSON [process_camera] reads: nested objects (an
    association list, looked up by first match) and lists. *)
Inductive cval :=
  | CNull
  | CBool (b : bool)
  | CInt (z : Z)
  | CStr (s : string)
  | CList (l : list cval)
  | CObj (o : list (string * cval)).

(** The exceptions [process_camera] can raise. *)
Inductive camera_error :=
  | CKeyError          (* KeyError of d[k] *)
  | CTypeError         (* TypeError, e.g. None[k] or iterating an int *)
  | CAttributeError    (* AttributeError, e.g. None.get(k) *)
  | CValueError        (* ValueError, e.g. from datetime.fromtimestamp *)
  | COverflowError     (* OverflowError, e.g. of int / 1000 *)
  | COSError           (* OSError, e.g. from datetime.fromtimestamp *)
  | CUnmodelled.       (* a Python behaviour this development leaves out *)

Inductive cresult (A : Type) :=
  | COk (a : A)
  | CErr (e : camera_error).
Arguments COk {A} a.
Arguments CErr {A} e.

Definition cbind {A B} (r : cresult A) (k : A -> cresult B) : cresult B :=
  match r with COk a => k a | CErr e => CErr e end.

Notation "'let+' x ':=' r 'in' k" := (cbind r (fun x => k))
  (at level 200, x name, r at level 100, k at level 200).

Fixpoint assoc (o : list (string * cval)) (k : string) : option cval :=
  match o with
  | [] => None
  | (k', v) :: o' => if String.eqb k' k then Some v else assoc o' k
  end.

(** [v[k]] *)
Definition item (v : cval) (k : string) : cresult cval :=
  match v with
  | CObj o => match assoc o k with Some x => COk x | None => CErr CKeyError end
  | _ => CErr CTypeError
  end.

(** [v.get(k, default)] *)
Definition get_default (v : cval) (k : string) (default : cval) : cresult cval :=
  match v with
  | CObj o => COk (match assoc o k with Some x => x | None => default end)
  | _ => CErr CAttributeError
  end.

(** [bool(v)] *)
Definition ctruthy (v : cval) : bool :=
  match v with
  | CNull => false
  | CBool b => b
  | CInt z => negb (z =? 0)
  | CStr s => negb (String.eqb s "")
  | CList l => negb (Nat.eqb (length l) 0)
  | CObj o => negb (Nat.eqb (length o) 0)
  end.

(** [v or default] *)
Definition py_or (v default : cval) : cval := if ctruthy v then v else default.

(** [int(v)] for the values a timestamp can hold; parsing a string is
    left out. *)
Definition py_int (v : cval) : cresult Z :=
  match v with
  | CInt z => COk z
  | CBool b => COk (if b then 1 else 0)
  | CStr _ => CErr CUnmodelled
  | _ => CErr CTypeError
  end.

(** Decimal digits of a natural number, most significant first. *)
Fixpoint digits (fuel : nat) (n : N) (acc : string) : string :=
  match fuel with
  | O => acc
  | S fuel' =>
      let acc := String (Ascii.ascii_of_N (48 + N.modulo n 10)) acc in
      if (n <? 10)%N then acc else digits fuel' (N.div n 10) acc
  end.

Definition str_Z (z : Z) : string :=
  if z <? 0 then String (Ascii.ascii_of_nat 45) (digits (S (N.size_nat (Z.to_N (- z)))) (Z.to_N (- z)) "")
  else digits (S (N.size_nat (Z.to_N z))) (Z.to_N z) "".

(** [str.lower()] on ASCII text. *)
Definition lower_ascii (c : Ascii.ascii) : Ascii.ascii :=
  let n := Ascii.nat_of_ascii c in
  if (65 <=? n)%nat && (n <=? 90)%nat then Ascii.ascii_of_nat (n + 32) else c.

Fixpoint lower (s : string) : string :=
  match s with
  | EmptyString => EmptyString
  | String c s' => String (lower_ascii c) (lower s')
  end.

(** [pat in s] for strings. *)
Fixpoint str_contains (pat s : string) : bool :=
  String.prefix pat s ||
  match s with EmptyString => false | String _ s' => str_contains pat s' end.

(** [needle in v]: a substring of a string, an element of a list, a key
    of a dict. *)
Definition py_in_str (needle : string) (v : cval) : cresult bool :=
  match v with
  | CStr s => COk (str_contains needle s)
  | CList l => COk (existsb (fun x => match x with CStr t => String.eqb t needle | _ => false end) l)
  | CObj o => COk (existsb (fun kv => String.eqb kv.1 needle) o)
  | _ => CErr CTypeError
  end.

(** The dict [process_camera] returns; [last_motion] and [last_ring] are
    absent ([None]) unless [include_events] is set. *)
Record camera_update := {
  name : string;
  type : string;
  model : string;
  mac : string;
  ip_address : string;
  firmware_version : string;
  server_id : string;
  recording_mode : string;
  ir_mode : string;
  status_light : string;
  rtsp : option string;
  up_since : string;
  online : bool;
  has_highfps : bool;
  has_hdr : cval;
  video_mode : cval;
  hdr_mode : cval;
  last_motion : option (option string);
  last_ring : option (option string)
}.

Definition set_events (u : camera_update) (lm lr : option (option string)) : camera_update :=
  {| name := name u; type := type u; model := model u; mac := mac u;
     ip_address := ip_address u; firmware_version := firmware_version u;
     server_id := server_id u; recording_mode := recording_mode u;
     ir_mode := ir_mode u; status_light := status_light u; rtsp := rtsp u;
     up_since := up_since u; online := online u; has_highfps := has_highfps u;
     has_hdr := has_hdr u; video_mode := video_mode u; hdr_mode := hdr_mode u;
     last_motion := lm; last_ring := lr |}.

Section ProcessCamera.

(** [datetime.datetime.fromtimestamp(t).strftime("%Y-%m-%d %H:%M:%S")] on
    a float of seconds: the text depends on the local time zone, and the
    range on the platform (out of it, it raises ValueError, OverflowError
    or OSError). *)
Variable format_timestamp : Float64.float -> cresult string.

(** [str(v)] of a list or a dict (its [repr]). *)
Variable repr_container : cval -> string.

(** [str(v)] *)
Definition py_str (v : cval) : string :=
  match v with
  | CNull => "None"
  | CBool true => "True"
  | CBool false => "False"
  | CInt z => str_Z z
  | CStr s => s
  | CList _ | CObj _ => repr_container v
  end.

(** The loop over [channels]: the first channel with [isRtspEnabled]
    gives the URL, and the loop stops there. *)
Fixpoint rtsp_loop (host : string) (channels : list cval) : cresult (option string) :=
  match channels with
  | [] => COk None
  | channel :: rest =>
      let+ enabled := item channel "isRtspEnabled" in
      if ctruthy enabled then
        let+ alias := item channel "rtspAlias" in
        COk (Some (String.append "rtsp://"
                     (String.append host (String.append ":7447/" (py_str alias)))))
      else rtsp_loop host rest
  end.

(** [for channel in channels]: a list yields its items, a dict its keys,
    a string its characters; other values are not iterable. *)
Definition iter_channels (host : string) (channels : cval) : cresult (option string) :=
  match channels with
  | CList l => rtsp_loop host l
  | CObj o => rtsp_loop host (map (fun kv => CStr kv.1) o)
  | CStr s => rtsp_loop host (map (fun c => CStr (String c EmptyString)) (String.list_ascii_of_string s))
  | _ => CErr CTypeError
  end.

(** [datetime.datetime.fromtimestamp(int(v) / 1000).strftime(...)]:
    [int(v) / 1000] raises OverflowError when it exceeds the doubles. *)
Definition timestamp_text (v : cval) : cresult string :=
  let+ z := py_int v in
  match Float64.int_truediv z 1000 with
  | Some t => format_timestamp t
  | None => CErr COverflowError
  end.

(** A timestamp field: [None] stays [None], a number is formatted. *)
Definition timestamp_or_none (v : cval) : cresult (option string) :=
  match v with
  | CNull => COk None
  | _ => let+ s := timestamp_text v in COk (Some s)
  end.

Definition process_camera (server_id host : string) (camera : cval) (include_events : bool)
  : cresult camera_update :=
  let+ state := item camera "state" in
  let online := match state with CStr s => String.eqb s "CONNECTED" | _ => false end in
  let+ recording_settings := item camera "recordingSettings" in
  let+ mode := item recording_settings "mode" in
  let recording_mode := py_str mode in
  let+ isp_settings := item camera "ispSettings" in
  let+ ir_led_mode := item isp_settings "irLedMode" in
  let ir_mode := py_str ir_led_mode in
  let+ led_settings := item camera "ledSettings" in
  let+ is_enabled := item led_settings "isEnabled" in
  let status_light := py_str is_enabled in
  let+ up := item camera "upSince" in
  let+ upsince :=
    (match up with
     | CNull => COk "Offline"
     | _ => timestamp_text up
     end) in
  let+ camera_type := item camera "type" in
  let device_type :=
    if negb (str_contains "doorbell" (lower (py_str camera_type))) then "camera"
    else "doorbell" in
  let+ firmware := item camera "firmwareVersion" in
  let firmware_version := py_str firmware in
  let+ featureflags := get_default camera "featureFlags" CNull in
  let+ video_modes := get_default featureflags "videoModes" (CStr "") in
  let+ has_highfps := py_in_str "highFps" video_modes in
  let+ vmode := get_default camera "videoMode" CNull in
  let video_mode := py_or vmode (CStr "default") in
  let+ has_hdr := get_default featureflags "hasHdr" CNull in
  let+ hmode := get_default camera "hdrMode" CNull in
  let hdr_mode := py_or hmode (CBool false) in
  let+ channels := item camera "channels" in
  let+ rtsp := iter_channels host channels in
  let+ cname := item camera "name" in
  let+ ctype := item camera "type" in
  let+ cmac := item camera "mac" in
  let+ chost := item camera "host" in
  let camera_update :=
    {| name := py_str cname; type := device_type; model := py_str ctype;
       mac := py_str cmac; ip_address := py_str chost;
       firmware_version := firmware_version; server_id := server_id;
       recording_mode := recording_mode; ir_mode := ir_mode;
       status_light := status_light; rtsp := rtsp; up_since := upsince;
       online := online; has_highfps := has_highfps; has_hdr := has_hdr;
       video_mode := video_mode; hdr_mode := hdr_mode;
       last_motion := None; last_ring := None |} in
  if include_events then
    let+ lm := item camera "lastMotion" in
    let+ last_motion := timestamp_or_none lm in
    let+ lr := get_default camera "lastRing" CNull in
    let+ last_ring := timestamp_or_none lr in
    COk (set_events camera_update (Some last_motion) (Some last_ring))
  else COk camera_update.

End ProcessCamera.

(** A doorbell as the controller reports it: connected, RTSP off on its
    first channel and on for the second, a third channel without the
    flag. *)
Definition sample_doorbell : cval :=
  CObj [("state", CStr "CONNECTED");
        ("recordingSettings", CObj [("mode", CStr "always")]);
        ("ispSettings", CObj [("irLedMode", CStr "auto")]);
        ("ledSettings", CObj [("isEnabled", CBool true)]);
        ("upSince", CInt 1605421197481);
        ("type", CStr "UVC G4 Doorbell");
        ("firmwareVersion", CStr "4.30.0");
        ("featureFlags", CObj [("videoModes", CList [CStr "default"; CStr "highFps"]);
                               ("hasHdr", CBool false)]);
        ("videoMode", CStr "");
        ("channels", CList [CObj [("isRtspEnabled", CBool false); ("rtspAlias", CStr "a0")];
                            CObj [("isRtspEnabled", CBool true); ("rtspAlias", CStr "a1")];
                            CObj [("rtspAlias", CStr "a2")]]);
        ("name", CStr "Front Door");
        ("mac", CStr "F09FC2000000");
        ("host", CStr "192.168.1.20");
        ("lastMotion", CInt 1605421315759)].

(** The same camera without [featureFlags]. *)
Definition sample_no_feature_flags : cval :=
  match sample_doorbell with
  | CObj o => CObj (filter (fun kv => negb (String.eqb kv.1 "featureFlags")) o)
  | v => v
  end.

(** A camera with the value of key [k] replaced by [v]. *)
Definition set_key (k : string) (v : cval) (camera : cval) : cval :=
  match camera with
  | CObj o => CObj (map (fun kv => if String.eqb kv.1 k then (k, v) else kv) o)
  | c => c
  end.

(** A stand-in for the local-time formatter: it gives every time the same
    date. *)
Definition sample_format : Float64.float -> cresult string :=
  fun _ => COk "2020-11-15 06:19:57".

End Camera.

(** A store at its bound: 512 events with the ids "0" to "511", oldest
    first. *)
Module StoreSamples.
Import Json Store.

Definition full_store : odict :=
  map (fun n => (Camera.str_Z (Z.of_nat n), (∅ : dict))) (seq 0 512).

End StoreSamples.

(** ** Python slicing *)

Lemma py_slice_in_range {A} (l : list A) (i j : Z) :
  0 <= i -> 0 <= j -> j <= Z.of_nat (length l) -> i <= Z.of_nat (length l) ->
  py_slice l i j = firstn (Z.to_nat (j - i)) (skipn (Z.to_nat i) l).
Proof.
  intros Hi Hj Hjl Hil. unfold py_slice, py_index.
  replace (i <? 0) with false by (symmetry; apply Z.ltb_ge; lia).
  replace (j <? 0) with false by (symmetry; apply Z.ltb_ge; lia).
  rewrite (Z.min_l i), (Z.min_l j) by lia. reflexivity.
Qed.

Lemma py_slice_mid {A} (pre mid post : list A) :
  py_slice (pre ++ mid ++ post) (Z.of_nat (length pre))
    (Z.of_nat (length pre) + Z.of_nat (length mid)) = mid.
Proof.
  rewrite py_slice_in_range by (rewrite ?length_app; lia).
  replace (Z.to_nat (Z.of_nat (length pre) + Z.of_nat (length mid) - Z.of_nat (length pre)))
    with (length mid) by lia.
  rewrite Nat2Z.id. rewrite drop_app_length. rewrite take_app_length. reflexivity.
Qed.

Lemma py_slice_length_lt {A} (l : list A) (i j : Z) :
  0 <= i -> i < j -> Z.of_nat (length l) < j ->
  (length (py_slice l i j) < Z.to_nat (j - i))%nat.
Proof.
  intros Hi Hij Hl. unfold py_slice, py_index.
  replace (i <? 0) with false by (symmetry; apply Z.ltb_ge; lia).
  replace (j <? 0) with false by (symmetry; apply Z.ltb_ge; lia).
  rewrite length_take, length_drop.
  destruct (Z.min_spec i (Z.of_nat (length l))) as [[? ->]|[? ->]];
    destruct (Z.min_spec j (Z.of_nat (length l))) as [[? ->]|[? ->]]; lia.
Qed.

Module FrameFacts.
Import Frame.

Lemma unpack_header_length h r : unpack_header h = Ok r -> length h = 8%nat.
Proof.
  destruct h as [|? [|? [|? [|? [|? [|? [|? [|? [|]]]]]]]]]; simpl; congruence.
Qed.

Lemma decode_ws_frame_header_error zd frame position e :
  unpack_header (py_slice frame position (position + 8)) = Error e ->
  decode_ws_frame zd frame position = Error e.
Proof. intros H. unfold decode_ws_frame, WS_HEADER_SIZE. by rewrite H. Qed.

(** One decoding step once the header has been read. *)
Lemma decode_ws_frame_eq zd frame position pt tag defl rsv size :
  unpack_header (py_slice frame position (position + 8)) = Ok (pt, tag, defl, rsv, size) ->
  decode_ws_frame zd frame position =
    (let payload := py_slice frame (position + 8) (position + 8 + size) in
     let* f := (if negb (defl =? 0) then
                  match zd payload with Some f => Ok f | None => Error ZlibError end
                else Ok payload) in
     let* fmt := ProtectWSPayloadFormat_of tag in
     Ok (f, fmt, position + 8 + size)).
Proof. intros H. unfold decode_ws_frame, WS_HEADER_SIZE. by rewrite H. Qed.

Lemma ProtectWSPayloadFormat_of_spec v f :
  ProtectWSPayloadFormat_of v = Ok f <-> format_value f = v.
Proof.
  unfold ProtectWSPayloadFormat_of.
  destruct (Z.eqb_spec v 1), (Z.eqb_spec v 2), (Z.eqb_spec v 3);
    destruct f; simpl; split; intros H; try congruence; lia.
Qed.

End FrameFacts.

Module FrameClaims.
Import Frame FrameFacts.

Lemma unpack_header_short h : length h <> 8%nat -> unpack_header h = Error StructError.
Proof.
  destruct h as [|? [|? [|? [|? [|? [|? [|? [|? [|]]]]]]]]]; simpl; congruence.
Qed.

Lemma header_slice pre (hdr rest : list Byte.byte) :
  length hdr = 8%nat ->
  py_slice (pre ++ hdr ++ rest) (Z.of_nat (length pre)) (Z.of_nat (length pre) + 8) = hdr.
Proof.
  intros Hl. pose proof (py_slice_mid pre hdr rest) as E.
  rewrite Hl in E. exact E.
Qed.

(** C4 (as stated, refuted): a header whose payload length runs past the
    end of the buffer is not rejected. The 10-byte buffer below declares
    a 100-byte JSON payload and carries 2 bytes; it decodes to those 2
    bytes and position 108. *)
Lemma decode_ws_frame_overlong_accepted :
  unpack_header (py_slice (bytes_of [1;1;0;0;0;0;0;100;65;66]) 0 (0 + 8))
    = Ok (1, 1, 0, 0, 100) /\
  Z.of_nat (length (bytes_of [1;1;0;0;0;0;0;100;65;66])) - (0 + 8) < 100 /\
  decode_ws_frame (fun _ => None) (bytes_of [1;1;0;0;0;0;0;100;65;66]) 0
    = Ok (bytes_of [65;66], JSON, 108).
Proof. vm_compute. split; [reflexivity | split; reflexivity]. Qed.

(** C4 (amended): [decode_ws_frame] raises [struct.error] when fewer than
    8 bytes remain at a non-negative [position]; once the header is read it
    checks nothing about the declared payload length: an uncompressed frame
    with a known format tag returns the Python slice
    [frame[position+8 : position+8+size]] (shorter than [size] when the
    buffer ends early, empty or taken from the buffer's end when [size] is
    negative) and [position + 8 + size]. *)
Theorem decode_ws_frame_length_unchecked :
  (forall zd frame position,
      0 <= position -> Z.of_nat (length frame) < position + 8 ->
      decode_ws_frame zd frame position = Error StructError) /\
  (forall zd frame position pt tag rsv size f,
      unpack_header (py_slice frame position (position + 8)) = Ok (pt, tag, 0, rsv, size) ->
      ProtectWSPayloadFormat_of tag = Ok f ->
      decode_ws_frame zd frame position
        = Ok (py_slice frame (position + 8) (position + 8 + size), f, position + 8 + size)).
Proof.
  split.
  - intros zd frame position Hp Hl. apply decode_ws_frame_header_error.
    apply unpack_header_short.
    pose proof (py_slice_length_lt frame position (position + 8)) as Hs.
    replace (Z.to_nat (position + 8 - position)) with 8%nat in Hs by lia.
    specialize (Hs Hp ltac:(lia) Hl). lia.
  - intros zd frame position pt tag rsv size f Hh Hf.
    rewrite (decode_ws_frame_eq zd _ _ _ _ _ _ _ Hh). simpl. by rewrite Hf.
Qed.

(** C7: a successful decode reports the format whose value is the header's
    tag, and a tag outside {1 (JSON), 2 (UTF8String), 3 (NodeBuffer)}
    never decodes: [ProtectWSPayloadFormat(tag)] raises [ValueError]
    (unless [zlib.decompress] raised first). *)
Theorem decode_ws_frame_unknown_format zd frame position pt tag defl rsv size :
  unpack_header (py_slice frame position (position + 8)) = Ok (pt, tag, defl, rsv, size) ->
  (forall payload f next,
      decode_ws_frame zd frame position = Ok (payload, f, next) -> format_value f = tag) /\
  (tag <> 1 -> tag <> 2 -> tag <> 3 ->
   (forall r, decode_ws_frame zd frame position <> Ok r) /\
   ((defl = 0 \/ is_Some (zd (py_slice frame (position + 8) (position + 8 + size)))) ->
    decode_ws_frame zd frame position = Error ValueError)).
Proof.
  intros Hh. rewrite (decode_ws_frame_eq zd _ _ _ _ _ _ _ Hh). simpl.
  assert (Hbad : tag <> 1 -> tag <> 2 -> tag <> 3 ->
                 ProtectWSPayloadFormat_of tag = Error ValueError).
  { intros. unfold ProtectWSPayloadFormat_of.
    repeat match goal with |- context [?a =? ?b] => destruct (Z.eqb_spec a b); [lia|] end.
    reflexivity. }
  split.
  - intros payload f next.
    destruct (negb (defl =? 0)); [destruct (zd _)|]; simpl; try discriminate;
      destruct (ProtectWSPayloadFormat_of tag) eqn:E; simpl; try discriminate;
      intros [= _ -> _]; by apply ProtectWSPayloadFormat_of_spec.
  - intros H1 H2 H3. rewrite (Hbad H1 H2 H3). split.
    + intros r. destruct (negb (defl =? 0)); [destruct (zd _)|]; simpl; discriminate.
    + intros [->|[x Hx]]; simpl; [reflexivity|].
      destruct (negb (defl =? 0)); [rewrite Hx|]; reflexivity.
Qed.

(** C8: a well-formed frame (header at [position], deflate flag set, a
    known format tag, a length equal to that of the payload bytes [c])
    whose payload [zlib.decompress] inflates to [p] decodes to exactly
    [p]; and every successful decode returns [position + 8 + size],
    [size] being the header's payload length. *)
Theorem decode_ws_frame_deflated_roundtrip
  (zlib_decompress : list Byte.byte -> option (list Byte.byte))
  (c p : list Byte.byte) (Hz : zlib_decompress c = Some p)
  (pre post : list Byte.byte) (h0 h1 h2 h3 h4 h5 h6 h7 : Byte.byte)
  (f : ProtectWSPayloadFormat)
  (Hd : s8 h2 <> 0)
  (Hf : ProtectWSPayloadFormat_of (s8 h1) = Ok f)
  (Hlen : be_i32 h4 h5 h6 h7 = Z.of_nat (length c)) :
  decode_ws_frame zlib_decompress
    (pre ++ [h0; h1; h2; h3; h4; h5; h6; h7] ++ c ++ post)
    (Z.of_nat (length pre))
  = Ok (p, f, Z.of_nat (length pre) + 8 + Z.of_nat (length c)) /\
  (forall frame position payload fmt next,
      decode_ws_frame zlib_decompress frame position = Ok (payload, fmt, next) ->
      exists pt tag defl rsv size,
        unpack_header (py_slice frame position (position + 8))
          = Ok (pt, tag, defl, rsv, size) /\
        next = position + 8 + size).
Proof.
  split.
  - set (hdr := [h0; h1; h2; h3; h4; h5; h6; h7]).
    assert (Hh : unpack_header (py_slice (pre ++ hdr ++ c ++ post)
                   (Z.of_nat (length pre)) (Z.of_nat (length pre) + 8))
                 = Ok (s8 h0, s8 h1, s8 h2, s8 h3, be_i32 h4 h5 h6 h7)).
    { rewrite header_slice by reflexivity. reflexivity. }
    rewrite (decode_ws_frame_eq _ _ _ _ _ _ _ _ Hh). cbv zeta.
    assert (Hp : py_slice (pre ++ hdr ++ c ++ post)
                   (Z.of_nat (length pre) + 8)
                   (Z.of_nat (length pre) + 8 + be_i32 h4 h5 h6 h7) = c).
    { rewrite Hlen, app_assoc.
      pose proof (py_slice_mid (pre ++ hdr) (c) post) as E.
      rewrite length_app, Nat2Z.inj_add in E. exact E. }
    rewrite Hp.
    replace (negb (s8 h2 =? 0)) with true by (symmetry; apply negb_true_iff, Z.eqb_neq; exact Hd).
    rewrite Hz. simpl. rewrite Hf. simpl. by rewrite Hlen.
  - intros frame position payload fmt next H.
    destruct (unpack_header (py_slice frame position (position + 8)))
      as [[[[[pt tag] defl] rsv] size]|e] eqn:Hh.
    + exists pt, tag, defl, rsv, size. split; [reflexivity|].
      rewrite (decode_ws_frame_eq _ _ _ _ _ _ _ _ Hh) in H. cbv zeta in H.
      destruct (negb (defl =? 0)); [destruct (zlib_decompress (py_slice _ _ _))|]; simpl in H;
        try discriminate;
        destruct (ProtectWSPayloadFormat_of tag); simpl in H; congruence.
    + rewrite (decode_ws_frame_header_error _ _ _ _ Hh) in H. discriminate.
Qed.

End FrameClaims.

Module FrameWitnesses.
Import Frame FrameClaims FrameSamples.

(** C7 at the frame [01 09 00 00 00 00 00 01 41]: tag 9 raises ValueError. *)
Lemma decode_ws_frame_unknown_format_witness :
  unpack_header (py_slice (bytes_of [1;9;0;0;0;0;0;1;65]) 0 (0 + 8)) = Ok (1, 9, 0, 0, 1) /\
  decode_ws_frame (fun _ => None) (bytes_of [1;9;0;0;0;0;0;1;65]) 0 = Error ValueError.
Proof.
  assert (H : unpack_header (py_slice (bytes_of [1;9;0;0;0;0;0;1;65]) 0 (0 + 8))
              = Ok (1, 9, 0, 0, 1)) by (vm_compute; reflexivity).
  split; [exact H|].
  destruct (decode_ws_frame_unknown_format (fun _ => None) _ _ _ _ _ _ _ H) as [_ Hu].
  apply (Hu ltac:(discriminate) ltac:(discriminate) ltac:(discriminate)).
  left. reflexivity.
Defined.

(** C8 at a real zlib stream: a JSON frame whose 106 payload bytes are
    [zlib.compress] of the 120-byte [motion_json], followed by one more
    byte. *)
Lemma decode_ws_frame_deflated_roundtrip_witness :
  Inflate.zlib_decompress motion_json_zlib = Some motion_json /\
  decode_ws_frame Inflate.zlib_decompress
    ([] ++ bytes_of [1;1;1;0;0;0;0;106] ++ motion_json_zlib ++ [Byte.x01])
    (Z.of_nat (length (@nil Byte.byte)))
  = Ok (motion_json, JSON,
        Z.of_nat (length (@nil Byte.byte)) + 8 + Z.of_nat (length motion_json_zlib)).
Proof.
  assert (Hz : Inflate.zlib_decompress motion_json_zlib = Some motion_json)
    by (vm_compute; reflexivity).
  split; [exact Hz|].
  exact (proj1 (decode_ws_frame_deflated_roundtrip Inflate.zlib_decompress
           motion_json_zlib motion_json Hz [] [Byte.x01]
           Byte.x01 Byte.x01 Byte.x01 Byte.x00 Byte.x00 Byte.x00 Byte.x00 Byte.x6a JSON
           ltac:(discriminate) ltac:(reflexivity) ltac:(vm_compute; reflexivity))).
Defined.

End FrameWitnesses.

Module ProjectorFacts.
Import Json Projector.

Lemma bind_Ok {A B} (r : result A) (k : A -> result B) b :
  bind r k = Ok b <-> exists a, r = Ok a /\ k a = Ok b.
Proof.
  destruct r as [a|e]; simpl; split.
  - intros H. by exists a.
  - by intros (a' & [= ->] & H).
  - discriminate.
  - by intros (a' & ? & _).
Qed.

(** Split a successful [let*] chain in hypothesis [H]. *)
Ltac bind_inv H :=
  repeat match type of H with
  | bind _ _ = Ok _ =>
      let a := fresh "a" in let Ea := fresh "E" in
      apply bind_Ok in H; destruct H as (a & Ea & H)
  end.

End ProjectorFacts.

Module ProjectorClaims.
Import Json Projector ProjectorFacts Samples.

(** C1 (as stated, refuted): an ended motion event whose score clears
    the threshold is still reported [event_on = true]. *)
Lemma process_event_ended_motion_is_on :
  (is_str (get ended_motion "type") EVENT_MOTION
   || is_str (get ended_motion "type") EVENT_SMART_DETECT_ZONE) = true /\
  get ended_motion "end" = JInt 2000 /\
  match process_event sample_fromtimestamp ended_motion 50 (-1) with
  | Ok pe => event_on pe = true
  | Error _ => False
  end.
Proof. vm_compute. split; [reflexivity | split; reflexivity]. Qed.

(** C1 (amended): for a [motion] or [smartDetectZone] event,
    [event_on] is true exactly when [score] is present and
    [int(score) >= minimum_score]; [end] plays no part. *)
Theorem process_event_motion_on fromtimestamp (ev : dict) minimum_score ring_interval pe :
  process_event fromtimestamp ev minimum_score ring_interval = Ok pe ->
  (is_str (get ev "type") EVENT_MOTION
   || is_str (get ev "type") EVENT_SMART_DETECT_ZONE) = true ->
  (event_on pe = true <->
   exists s, py_number (get ev "score") = Ok s /\ minimum_score <= s).
Proof.
  intros H Hty. unfold process_event in H. rewrite Hty in H.
  bind_inv H. simpl in H.
  destruct (get ev "score") as [|b|z|s|l] eqn:Es; simpl in E1; try discriminate E1;
    injection E1 as <-; simpl in H; injection H as <-; simpl.
  - split; [discriminate | intros (? & [=] & _)].
  - split; [intros Hle; eexists; split; [reflexivity | by apply Z.leb_le]
           | intros (s' & [= <-] & Hle); by apply Z.leb_le].
  - split; [intros Hle; eexists; split; [reflexivity | by apply Z.leb_le]
           | intros (s' & [= <-] & Hle); by apply Z.leb_le].
Qed.

(** In the ring branch, [event_ring_on] is true exactly when
    [ring_interval] is the sentinel [LIVE_RING_FROM_WEBSOCKET], or [end]
    is falsy, or both [start >= ring_interval] and [end >= ring_interval]. *)
Lemma process_event_ring_on_iff fromtimestamp (ev : dict) minimum_score ring_interval pe :
  process_event fromtimestamp ev minimum_score ring_interval = Ok pe ->
  (is_str (get ev "type") EVENT_MOTION
   || is_str (get ev "type") EVENT_SMART_DETECT_ZONE) = false ->
  (event_ring_on pe = true <->
   ring_interval = LIVE_RING_FROM_WEBSOCKET \/
   truthy (get ev "end") = false \/
   (py_ge (get ev "start") ring_interval = Ok true /\
    py_ge (get ev "end") ring_interval = Ok true)).
Proof.
  intros H Hty. unfold process_event in H. rewrite Hty in H.
  bind_inv H. simpl in E1. bind_inv E1.
  injection E1 as <-. simpl in H. injection H as <-. simpl.
  unfold LIVE_RING_FROM_WEBSOCKET in *.
  destruct (Z.eqb_spec ring_interval (-1)) as [Hri|Hri]; simpl in E2.
  - injection E2 as <-. tauto.
  - destruct (truthy (get ev "end")) eqn:Ee; simpl in E2.
    + destruct (py_ge (get ev "start") ring_interval) as [[|]|e] eqn:Es;
        simpl in E2; try discriminate.
      * rewrite E2. split; [intros ->; tauto | intros [?|[?|[? ?]]]; congruence].
      * injection E2 as <-. split; [discriminate | intros [?|[?|[? ?]]]; congruence].
    + injection E2 as <-. tauto.
Qed.

End ProjectorClaims.

Module IngestFacts.
Import Json Projector Store Ingest ProjectorFacts.

(** Every projected result of [event_from_ws_frames] comes from
    [process_event] with the websocket sentinel. *)
Lemma event_from_ws_frames_processed fromtimestamp sm minimum_score (aj dj : dict) sm' cam pe :
  event_from_ws_frames fromtimestamp sm minimum_score aj dj = (sm', Ok (Some (cam, pe))) ->
  exists ev : dict,
    process_event fromtimestamp ev minimum_score LIVE_RING_FROM_WEBSOCKET = Ok pe.
Proof.
  intros H. unfold event_from_ws_frames in H.
  destruct (getitem aj "modelKey") as [mk|e]; [|discriminate].
  destruct (negb (is_str mk "event")); [discriminate|].
  destruct (getitem aj "action") as [action|e]; [|discriminate].
  destruct (getitem aj "id") as [eid|e]; [|discriminate].
  cbv zeta in H.
  assert (Hfin : forall c ev, (sm', let* pe := process_event fromtimestamp ev minimum_score
                                     LIVE_RING_FROM_WEBSOCKET in Ok (Some (c, pe)))
                             = (sm', Ok (Some (cam, pe))) ->
                 exists ev : dict,
                   process_event fromtimestamp ev minimum_score LIVE_RING_FROM_WEBSOCKET = Ok pe).
  { intros c ev Hc. injection Hc as Hc.
    apply bind_Ok in Hc as (pe' & Hpe & [= -> ->]). by exists ev. }
  destruct (is_str action "add").
  - destruct (get dj "camera"); try discriminate;
      destruct (as_key eid) as [k|]; simpl in H; try discriminate;
      injection H as <- H; eapply Hfin; rewrite H; reflexivity.
  - destruct (is_str action "update"); [|discriminate].
    destruct (as_key eid) as [k|]; simpl in H; [|discriminate].
    destruct (sm_update sm k dj) as [sm1 [ev|]]; [|discriminate].
    destruct (bool_decide _); [discriminate|].
    injection H as <- H. eapply Hfin. rewrite H. reflexivity.
Qed.

End IngestFacts.

Module IngestClaims.
Import Json Projector Store Ingest Samples ProjectorFacts ProjectorClaims IngestFacts.

(** C2 (as stated, refuted): [event_from_ws_frames] passes the sentinel
    [LIVE_RING_FROM_WEBSOCKET] to [process_event], so a ring that ended at
    1500 is still reported ringing at [now_ms = 100000], outside the
    trailing 3-second window. *)
Lemma event_from_ws_frames_old_ring_on :
  (is_str (get ended_ring "type") EVENT_MOTION
   || is_str (get ended_ring "type") EVENT_SMART_DETECT_ZONE) = false /\
  truthy (get ended_ring "end") = true /\
  py_ge (get ended_ring "start") (100000 - 3000) = Ok false /\
  match event_from_ws_frames sample_fromtimestamp [] 50 add_e2 ended_ring with
  | (_, Ok (Some (_, pe))) => event_ring_on pe = true
  | _ => False
  end.
Proof. vm_compute. repeat split. Qed.

(** C2 (amended): in the ring branch of [process_event] (type neither
    [motion] nor [smartDetectZone]), [event_ring_on] is true exactly when
    [ring_interval] is [LIVE_RING_FROM_WEBSOCKET] (-1), or [end] is falsy,
    or [start >= ring_interval] and [end >= ring_interval]; and
    [event_from_ws_frames], which always passes that sentinel, reports
    every ring event it projects as ringing. *)
Theorem ring_on_window_or_sentinel :
  (forall fromtimestamp (ev : dict) minimum_score ring_interval pe,
     process_event fromtimestamp ev minimum_score ring_interval = Ok pe ->
     (is_str (get ev "type") EVENT_MOTION
      || is_str (get ev "type") EVENT_SMART_DETECT_ZONE) = false ->
     (event_ring_on pe = true <->
      ring_interval = LIVE_RING_FROM_WEBSOCKET \/
      truthy (get ev "end") = false \/
      (py_ge (get ev "start") ring_interval = Ok true /\
       py_ge (get ev "end") ring_interval = Ok true))) /\
  (forall fromtimestamp (sm : odict) minimum_score (aj dj : dict) sm' cam pe,
     event_from_ws_frames fromtimestamp sm minimum_score aj dj = (sm', Ok (Some (cam, pe))) ->
     (is_str (event_type pe) EVENT_MOTION
      || is_str (event_type pe) EVENT_SMART_DETECT_ZONE) = false ->
     event_ring_on pe = true).
Proof.
  split; [exact process_event_ring_on_iff|].
  intros fromtimestamp sm minimum_score aj dj sm' cam pe H Hty.
  destruct (event_from_ws_frames_processed _ _ _ _ _ _ _ _ H) as [ev Hev].
  assert (Ht : event_type pe = get ev "type").
  { unfold process_event in Hev. bind_inv Hev.
    destruct a1 as [[[? ?] ?] ?]. by injection Hev as <-. }
  rewrite Ht in Hty.
  apply (process_event_ring_on_iff _ ev _ _ _ Hev Hty). by left.
Qed.

End IngestClaims.

Module ProjectorTotality.
Import Json Projector ProjectorFacts Samples.

(** C10 (as stated, refuted): a truthy [start] is not needed when [end]
    is truthy: [start = 0] is falsy, yet [float(0)] succeeds and
    [process_event] returns. *)
Lemma process_event_zero_start_returns :
  truthy (get zero_start_ring "end") = true /\
  truthy (get zero_start_ring "start") = false /\
  exists pe, process_event sample_fromtimestamp zero_start_ring 50 (-1) = Ok pe.
Proof. vm_compute. split; [reflexivity | split; [reflexivity | eexists; reflexivity]]. Qed.

(** C10 (amended): [process_event] raises whenever [end] is truthy and
    [start] is absent or null. [start] is not tested by truthiness: with
    [start = 0] and an int [end] ≠ 0 it returns (score null or an int),
    with no [event_start] and the float
    [event_length = round(float(end)/1000 - float(0)/1000, 3)], unless
    [float(end)] overflows, which raises OverflowError. [end] is tested by
    truthiness: a missing, null or 0 [end] gives [event_length = 0]. *)
Theorem process_event_end_needs_start :
  (forall fromtimestamp (ev : dict) minimum_score ring_interval,
     truthy (get ev "end") = true -> get ev "start" = JNull ->
     exists e, process_event fromtimestamp ev minimum_score ring_interval = Error e) /\
  (forall fromtimestamp (ev : dict) minimum_score ring_interval e fe fs,
     get ev "start" = JInt 0 -> get ev "end" = JInt e -> e <> 0 ->
     py_float (JInt e) = Ok fe -> py_float (JInt 0) = Ok fs ->
     (get ev "score" = JNull \/ exists z, get ev "score" = JInt z) ->
     exists pe, process_event fromtimestamp ev minimum_score ring_interval = Ok pe /\
                event_start pe = None /\ event_length pe = PFloat (length_seconds fe fs)) /\
  (forall fromtimestamp (ev : dict) minimum_score ring_interval e,
     get ev "start" = JInt 0 -> get ev "end" = JInt e -> e <> 0 ->
     py_float (JInt e) = Error OverflowError ->
     process_event fromtimestamp ev minimum_score ring_interval = Error OverflowError) /\
  (forall fromtimestamp (ev : dict) minimum_score ring_interval pe,
     process_event fromtimestamp ev minimum_score ring_interval = Ok pe ->
     truthy (get ev "end") = false -> event_length pe = PInt 0).
Proof.
  split; [|split; [|split]].
  - intros fromtimestamp ev minimum_score ring_interval He Hs.
    unfold process_event. rewrite He, Hs. simpl.
    destruct (py_float (get ev "end")); simpl; eauto.
  - intros fromtimestamp ev minimum_score ring_interval e fe fs Hs He He0 Hfe Hfs Hsc.
    unfold process_event. rewrite Hs, He, Hfe, Hfs. simpl.
    replace (negb (e =? 0)) with true by (symmetry; apply negb_true_iff, Z.eqb_neq; exact He0).
    simpl.
    destruct (_ || _); [destruct Hsc as [-> | [z ->]] |]; simpl;
      repeat match goal with
             | |- context [if ?b then _ else _] => destruct b; simpl
             end;
      (eexists; split; [reflexivity | simpl; split; reflexivity]).
  - intros fromtimestamp ev minimum_score ring_interval e Hs He He0 Hfe.
    unfold process_event. rewrite Hs, He, Hfe. simpl.
    replace (negb (e =? 0)) with true by (symmetry; apply negb_true_iff, Z.eqb_neq; exact He0).
    reflexivity.
  - intros fromtimestamp ev minimum_score ring_interval pe H Hend.
    unfold process_event in H. rewrite Hend in H. bind_inv H.
    injection E0 as <-. destruct a1 as [[[? ?] ?] ?]. by injection H as <-.
Qed.

End ProjectorTotality.

Module StoreFacts.
Import Json Store.

Lemma od_mem_spec (d : odict) k : od_mem d k = true <-> In k (keys d).
Proof.
  unfold od_mem, keys. rewrite existsb_exists, in_map_iff. split.
  - intros ([k' v] & Hin & Heq). apply String.eqb_eq in Heq. simpl in Heq. subst.
    by exists (k, v).
  - intros ([k' v] & <- & Hin). exists (k', v). split; [done|]. apply String.eqb_refl.
Qed.

Lemma keys_od_assign (d : odict) k v : keys (od_assign d k v) = keys d.
Proof.
  unfold keys, od_assign. rewrite map_map. apply map_ext.
  intros [k' v']. simpl. destruct (String.eqb_spec k' k); simpl; congruence.
Qed.

Lemma length_od_assign (d : odict) k v : length (od_assign d k v) = length d.
Proof. unfold od_assign. apply length_map. Qed.

Lemma length_keys (d : odict) : length (keys d) = length d.
Proof. apply length_map. Qed.

Lemma od_get_od_assign (d : odict) k v : In k (keys d) -> od_get (od_assign d k v) k = Some v.
Proof.
  induction d as [|[k' v'] d IH]; simpl; [done|].
  destruct (String.eqb_spec k' k) as [->|Hne]; simpl.
  - by rewrite String.eqb_refl.
  - intros [?|Hin]; [congruence|].
    apply String.eqb_neq in Hne. rewrite Hne. by apply IH.
Qed.

Lemma od_get_In (d : odict) k v : od_get d k = Some v -> In k (keys d).
Proof.
  induction d as [|[k' v'] d IH]; simpl; [done|].
  destruct (String.eqb_spec k' k); [by left|]. intros H. right. by apply IH.
Qed.

(** A key already present: the value is replaced where it stands. *)
Lemma fix_setitem_present m (d : odict) k v :
  Z.of_nat (length d) <= m -> In k (keys d) ->
  fix_setitem m d k v = od_assign d k v.
Proof.
  intros Hl Hin. unfold fix_setitem, od_setitem.
  apply od_mem_spec in Hin. rewrite Hin, length_od_assign.
  destruct (0 <? m); [|done].
  replace (m <? Z.of_nat (length d)) with false by (symmetry; apply Z.ltb_ge; lia).
  done.
Qed.

(** A new key goes last; the oldest is popped when the bound is passed. *)
Lemma fix_setitem_absent m (d : odict) k v :
  0 < m -> ~ In k (keys d) ->
  fix_setitem m d k v =
    if m <? Z.of_nat (S (length d)) then tail (d ++ [(k, v)]) else d ++ [(k, v)].
Proof.
  intros Hm Hin. unfold fix_setitem, od_setitem.
  destruct (od_mem d k) eqn:E; [apply od_mem_spec in E; done|].
  rewrite length_app. simpl. rewrite Nat.add_1_r.
  replace (0 <? m) with true by (symmetry; apply Z.ltb_lt; lia). done.
Qed.

Lemma fix_setitem_bound m (d : odict) k v :
  0 < m -> Z.of_nat (length d) <= m -> Z.of_nat (length (fix_setitem m d k v)) <= m.
Proof.
  intros Hm Hl. destruct (od_mem d k) eqn:E.
  - apply od_mem_spec in E. rewrite fix_setitem_present by done.
    by rewrite length_od_assign.
  - assert (Hn : ~ In k (keys d)) by (rewrite <- od_mem_spec; congruence).
    rewrite fix_setitem_absent by done.
    destruct (Z.ltb_spec m (Z.of_nat (S (length d)))).
    + rewrite length_tl, length_app. simpl. lia.
    + rewrite length_app. simpl. lia.
Qed.

Lemma keys_tail (d : odict) : keys (tail d) = tail (keys d).
Proof. by destruct d. Qed.

Lemma drop_S_tail {A} (l : list A) i : drop (S i) l = tail (drop i l).
Proof.
  revert l. induction i as [|i IH]; intros [|x l]; simpl; try done; apply IH.
Qed.

(** Adding fresh keys one by one to an empty [FixSizeOrderedDict] of
    bound [m] keeps the last [m] of them, in insertion order. *)
Lemma fix_setitem_fold_keys m (adds : list (string * dict)) :
  0 < m -> NoDup (map fst adds) ->
  keys (fold_left (fun s kv => fix_setitem m s kv.1 kv.2) adds [])
    = drop (length adds - Z.to_nat m) (map fst adds).
Proof.
  intros Hm. induction adds as [|[k v] adds IH] using rev_ind; [done|].
  rewrite map_app, fold_left_app. simpl. intros Hnd.
  apply NoDup_app in Hnd as (Hnd & Hk & _).
  specialize (IH Hnd).
  set (d := fold_left (fun s kv => fix_setitem m s kv.1 kv.2) adds []) in *.
  assert (Hnin : ~ In k (keys d)).
  { rewrite IH. intros Hin. apply (Hk k); [|by left].
    apply list_elem_of_In. rewrite <- (firstn_skipn (length adds - Z.to_nat m) (map fst adds)).
    apply in_or_app. by right. }
  assert (Hlen : length d = Nat.min (length adds) (Z.to_nat m)).
  { rewrite <- length_keys, IH, length_drop, length_map. lia. }
  rewrite fix_setitem_absent by done. rewrite length_app. simpl.
  destruct (Z.ltb_spec m (Z.of_nat (S (length d)))).
  - rewrite keys_tail. unfold keys. rewrite map_app. fold (keys d). rewrite IH. simpl.
    replace (length adds + 1 - Z.to_nat m)%nat with (S (length adds - Z.to_nat m)) by lia.
    rewrite drop_app_le by (rewrite length_map; lia). rewrite drop_S_tail.
    destruct (drop (length adds - Z.to_nat m) (map fst adds)) as [|x l] eqn:E; [|done].
    apply (f_equal length) in E. rewrite length_drop, length_map in E. simpl in E. lia.
  - unfold keys. rewrite map_app. fold (keys d). rewrite IH. simpl.
    replace (length adds + 1 - Z.to_nat m)%nat with 0%nat by lia.
    replace (length adds - Z.to_nat m)%nat with 0%nat by lia. done.
Qed.

End StoreFacts.

Module StoreClaims.
Import Json Store StoreFacts.

(** C3: the retention store never exceeds
    [MAX_EVENT_HISTORY_IN_STATE_MACHINE] = 512 items after adds; after
    [512 + k] adds of distinct ids to the fresh store, exactly the last
    512 ids remain, in insertion order, and the first [k] are gone; an
    update (a lookup and an in-place merge) keeps the ids and their order. *)
Theorem retention_store_bounded_fifo :
  (forall (d : odict) (adds : list (string * dict)),
     Z.of_nat (length d) <= MAX_EVENT_HISTORY_IN_STATE_MACHINE ->
     Z.of_nat (length (sm_add_all d adds)) <= MAX_EVENT_HISTORY_IN_STATE_MACHINE) /\
  (forall (adds : list (string * dict)) (k : nat),
     NoDup (map fst adds) ->
     length adds = (Z.to_nat MAX_EVENT_HISTORY_IN_STATE_MACHINE + k)%nat ->
     keys (sm_add_all sm_init adds) = drop k (map fst adds) /\
     (forall i key, (i < k)%nat -> map fst adds !! i = Some key ->
                    ~ In key (keys (sm_add_all sm_init adds)))) /\
  (forall (d : odict) (event_id : string) (u : dict),
     keys (sm_update d event_id u).1 = keys d /\
     length (sm_update d event_id u).1 = length d).
Proof.
  split; [|split].
  - intros d adds. revert d. induction adds as [|[k v] adds IH]; intros d Hd; [done|].
    simpl. apply IH. unfold sm_add. apply fix_setitem_bound; [done | exact Hd].
  - intros adds k Hnd Hlen.
    assert (Hk : keys (sm_add_all sm_init adds) = drop k (map fst adds)).
    { unfold sm_add_all, sm_add, sm_init.
      rewrite (fix_setitem_fold_keys _ adds) by done. f_equal. rewrite Hlen. lia. }
    split; [exact Hk|].
    intros i key Hi Hkey Hin. rewrite Hk in Hin.
    apply list_elem_of_In, list_elem_of_lookup in Hin as [j Hj].
    rewrite lookup_drop in Hj.
    pose proof (NoDup_lookup _ _ _ _ Hnd Hkey Hj). lia.
  - intros d event_id u. unfold sm_update.
    destruct (od_get d event_id); simpl; [|done].
    by rewrite keys_od_assign, length_od_assign.
Qed.

(** C9: adding an id that is already tracked (store within its bound)
    replaces its record where it stands: same ids in the same order, same
    size, no eviction, and the new record is the one looked up. *)
Theorem sm_add_existing_keeps_position (d : odict) (event_id : string) (event_json : dict) :
  Z.of_nat (length d) <= MAX_EVENT_HISTORY_IN_STATE_MACHINE ->
  In event_id (keys d) ->
  keys (sm_add d event_id event_json) = keys d /\
  length (sm_add d event_id event_json) = length d /\
  od_get (sm_add d event_id event_json) event_id = Some event_json.
Proof.
  intros Hl Hin. unfold sm_add. rewrite fix_setitem_present by done.
  split; [apply keys_od_assign|]. split; [apply length_od_assign|].
  by apply od_get_od_assign.
Qed.

(** C6: an update of a tracked id merges shallowly: a key of the update
    body takes the body's value, any other key keeps the tracked value;
    the merged dict is what the store holds afterwards and what is
    returned. *)
Theorem sm_update_shallow_merge (d : odict) (event_id : string) (old upd : dict) :
  od_get d event_id = Some old ->
  exists merged : dict,
    sm_update d event_id upd = (od_assign d event_id merged, Some merged) /\
    od_get (od_assign d event_id merged) event_id = Some merged /\
    (forall key, merged !! key = match upd !! key with
                                 | Some v => Some v
                                 | None => old !! key
                                 end).
Proof.
  intros Hget. exists (upd ∪ old). split; [unfold sm_update; by rewrite Hget|].
  split; [apply od_get_od_assign; by eapply od_get_In|].
  intros key. rewrite lookup_union. by destruct (upd !! key), (old !! key).
Qed.

End StoreClaims.

Module IngestDrops.
Import Json Store Ingest.

(** C5: with an [event] envelope, an add whose body has no [camera]
    (missing or null), and an update of an id the store does not track,
    both return [(None, None)] and leave the store as it was. *)
Theorem event_from_ws_frames_dropped :
  (forall fromtimestamp (sm : odict) minimum_score (aj dj : dict) (eid : jval),
     aj !! "modelKey" = Some (JStr "event") ->
     aj !! "action" = Some (JStr "add") ->
     aj !! "id" = Some eid ->
     get dj "camera" = JNull ->
     event_from_ws_frames fromtimestamp sm minimum_score aj dj = (sm, Ok None)) /\
  (forall fromtimestamp (sm : odict) minimum_score (aj dj : dict) (event_id : string),
     aj !! "modelKey" = Some (JStr "event") ->
     aj !! "action" = Some (JStr "update") ->
     aj !! "id" = Some (JStr event_id) ->
     od_get sm event_id = None ->
     event_from_ws_frames fromtimestamp sm minimum_score aj dj = (sm, Ok None)).
Proof.
  split.
  - intros fromtimestamp sm minimum_score aj dj eid Hm Ha Hi Hc.
    unfold event_from_ws_frames, getitem. rewrite Hm, Ha, Hi, Hc. reflexivity.
  - intros fromtimestamp sm minimum_score aj dj event_id Hm Ha Hi Hg.
    unfold event_from_ws_frames, getitem, sm_update. rewrite Hm, Ha, Hi. simpl.
    rewrite Hg. reflexivity.
Qed.

End IngestDrops.

Module Witnesses.
Import Json Projector Store Samples ProjectorFacts ProjectorClaims StoreClaims
  ProjectorTotality.

(** C1 at the ended motion event (score 80, threshold 50). *)
Lemma process_event_motion_on_witness :
  exists pe, process_event sample_fromtimestamp ended_motion 50 (-1) = Ok pe /\
    (event_on pe = true <->
     exists s, py_number (get ended_motion "score") = Ok s /\ 50 <= s).
Proof.
  destruct (process_event sample_fromtimestamp ended_motion 50 (-1)) as [pe|e] eqn:E;
    [|vm_compute in E; discriminate].
  exists pe. split; [reflexivity|].
  apply (process_event_motion_on sample_fromtimestamp ended_motion 50 (-1) pe E).
  vm_compute. reflexivity.
Defined.

(** C9 at a store of three events: adding "e2" again keeps it second,
    and the store keeps its three ids. *)
Lemma sm_add_existing_keeps_position_witness :
  keys (sm_add [("e1", ended_motion); ("e2", ended_ring); ("e3", ∅)] "e2" zero_start_ring)
    = ["e1"; "e2"; "e3"] /\
  length (sm_add [("e1", ended_motion); ("e2", ended_ring); ("e3", ∅)] "e2" zero_start_ring)
    = 3%nat /\
  od_get (sm_add [("e1", ended_motion); ("e2", ended_ring); ("e3", ∅)] "e2" zero_start_ring)
    "e2" = Some zero_start_ring.
Proof.
  apply (sm_add_existing_keeps_position [("e1", ended_motion); ("e2", ended_ring); ("e3", ∅)]
           "e2" zero_start_ring).
  - vm_compute. discriminate.
  - right. left. reflexivity.
Defined.

(** C6 at a store tracking the ended ring as "e2": an update carrying a
    new [end] and a [score] overrides [end], adds [score], and keeps
    [start], [type] and [camera]. *)
Lemma sm_update_shallow_merge_witness :
  exists merged : dict,
    sm_update [("e1", ended_motion); ("e2", ended_ring)] "e2"
        (<["end" := JInt 2000]> (<["score" := JInt 5]> ∅))
      = (od_assign [("e1", ended_motion); ("e2", ended_ring)] "e2" merged, Some merged) /\
    od_get (od_assign [("e1", ended_motion); ("e2", ended_ring)] "e2" merged) "e2"
      = Some merged /\
    (forall key, merged !! key
                 = match (<["end" := JInt 2000]> (<["score" := JInt 5]> ∅) : dict) !! key with
                   | Some v => Some v
                   | None => ended_ring !! key
                   end) /\
    merged !! "end" = Some (JInt 2000) /\ merged !! "score" = Some (JInt 5) /\
    merged !! "start" = Some (JInt 1000) /\ merged !! "camera" = Some (JStr "c1").
Proof.
  destruct (sm_update_shallow_merge [("e1", ended_motion); ("e2", ended_ring)] "e2"
              ended_ring (<["end" := JInt 2000]> (<["score" := JInt 5]> ∅)) eq_refl)
    as (merged & H1 & H2 & H3).
  exists merged. split; [exact H1|]. split; [exact H2|]. split; [exact H3|].
  rewrite !H3. vm_compute. repeat split.
Defined.

(** C10 at the ring with [start = 0] and [end = 1000]: it returns, with
    no [event_start] and [event_length = round(1000/1000 - 0/1000, 3)];
    with [end = 10^400], [float(end)] overflows and it raises. *)
Lemma process_event_end_needs_start_witness :
  (exists pe, process_event sample_fromtimestamp zero_start_ring 50 (-1) = Ok pe /\
     event_start pe = None /\
     event_length pe = PFloat (length_seconds (Float64.of_small 1000) (Float64.of_small 0))) /\
  process_event sample_fromtimestamp (<["end" := JInt (10 ^ 400)]> zero_start_ring) 50 (-1)
    = Error OverflowError.
Proof.
  destruct process_event_end_needs_start as (_ & H2 & H3 & _). split.
  - apply (H2 sample_fromtimestamp zero_start_ring 50 (-1) 1000);
      [vm_compute; reflexivity | vm_compute; reflexivity | discriminate
      | vm_compute; reflexivity | vm_compute; reflexivity | left; vm_compute; reflexivity].
  - apply (H3 sample_fromtimestamp _ 50 (-1) (10 ^ 400));
      [vm_compute; reflexivity | vm_compute; reflexivity | vm_compute; discriminate
      | vm_compute; reflexivity].
Defined.

End Witnesses.

Module StoreExtra.
Import Json Store StoreFacts.

Lemma od_get_od_assign_ne (d : odict) k k' v :
  k <> k' -> od_get (od_assign d k v) k' = od_get d k'.
Proof.
  intros Hne. induction d as [|[k0 v0] d IH]; simpl; [done|].
  destruct (String.eqb_spec k0 k) as [->|Hk]; simpl.
  - destruct (String.eqb_spec k k'); [congruence|done].
  - by rewrite IH.
Qed.

Lemma od_get_app_absent (d : odict) k v :
  ~ In k (keys d) -> od_get (d ++ [(k, v)]) k = Some v.
Proof.
  induction d as [|[k0 v0] d IH]; simpl; intros Hn.
  - by rewrite String.eqb_refl.
  - destruct (String.eqb_spec k0 k); [tauto|]. apply IH. tauto.
Qed.

(** An update touches only the record of its own id. *)
Theorem sm_update_other_ids (d : odict) (event_id other : string) (u : dict) :
  event_id <> other ->
  od_get (sm_update d event_id u).1 other = od_get d other.
Proof.
  intros Hne. unfold sm_update. destruct (od_get d event_id); simpl; [|done].
  by apply od_get_od_assign_ne.
Qed.

(** Adding a new id: below the bound it goes last and nothing is evicted;
    at the bound (512 items) the oldest id is evicted and the new one goes
    last. *)
Theorem sm_add_fresh (d : odict) (event_id : string) (event_json : dict) :
  ~ In event_id (keys d) ->
  (Z.of_nat (length d) < MAX_EVENT_HISTORY_IN_STATE_MACHINE ->
   keys (sm_add d event_id event_json) = keys d ++ [event_id]) /\
  (Z.of_nat (length d) = MAX_EVENT_HISTORY_IN_STATE_MACHINE ->
   keys (sm_add d event_id event_json) = tail (keys d) ++ [event_id]).
Proof.
  intros Hn. unfold sm_add. rewrite fix_setitem_absent by done.
  split; intros Hl.
  - replace (MAX_EVENT_HISTORY_IN_STATE_MACHINE <? Z.of_nat (S (length d))) with false
      by (symmetry; apply Z.ltb_ge; lia).
    unfold keys. by rewrite map_app.
  - replace (MAX_EVENT_HISTORY_IN_STATE_MACHINE <? Z.of_nat (S (length d))) with true
      by (symmetry; apply Z.ltb_lt; lia).
    destruct d as [|[k0 v0] d]; [discriminate|].
    simpl. unfold keys. by rewrite map_app.
Qed.

Lemma od_get_sm_add (d : odict) (event_id : string) (event_json : dict) :
  Z.of_nat (length d) <= MAX_EVENT_HISTORY_IN_STATE_MACHINE ->
  od_get (sm_add d event_id event_json) event_id = Some event_json.
Proof.
  intros Hl. unfold sm_add. destruct (od_mem d event_id) eqn:E.
  - apply od_mem_spec in E. rewrite fix_setitem_present by done.
    by apply od_get_od_assign.
  - assert (Hn : ~ In event_id (keys d)) by (rewrite <- od_mem_spec; congruence).
    rewrite fix_setitem_absent by done.
    destruct (_ <? _) eqn:Hc; [|by apply od_get_app_absent].
    destruct d as [|[k0 v0] d]; simpl; [discriminate Hc|].
    apply od_get_app_absent. simpl in Hn. tauto.
Qed.

Lemma sm_add_nodup (d : odict) (event_id : string) (j : dict) :
  NoDup (keys d) -> NoDup (keys (sm_add d event_id j)).
Proof.
  intros Hnd. unfold sm_add. destruct (od_mem d event_id) eqn:E.
    + unfold fix_setitem, od_setitem. rewrite E, length_od_assign.
      destruct (_ <? _); [destruct (_ <? _)|]; rewrite ?keys_tail, keys_od_assign; try done.
      destruct (keys d); [constructor|]. by apply NoDup_cons in Hnd as [_ ?].
    + assert (Hn : ~ In event_id (keys d)) by (rewrite <- od_mem_spec; congruence).
      assert (Happ : NoDup (keys (d ++ [(event_id, j)]))).
      { unfold keys. rewrite map_app. apply NoDup_app. split; [done|]. split.
        - intros x Hx Hx'. apply list_elem_of_singleton in Hx' as ->.
          apply Hn. by apply list_elem_of_In.
        - apply NoDup_singleton. }
      unfold fix_setitem, od_setitem. rewrite E.
      destruct (_ <? _); [destruct (_ <? _)|]; try done.
      rewrite keys_tail. destruct (keys (d ++ [(event_id, j)])); [constructor|].
      by apply NoDup_cons in Happ as [_ ?].
Qed.

Lemma sm_update_keys (d : odict) (event_id : string) (j : dict) :
  keys (sm_update d event_id j).1 = keys d.
Proof.
  unfold sm_update. destruct (od_get d event_id); simpl; [|done].
  by rewrite keys_od_assign.
Qed.

(** Within the bound, the record just added is the one an immediate
    lookup finds: an add is never evicted by itself. *)
Theorem sm_add_lookup (d : odict) (event_id : string) (event_json : dict) :
  Z.of_nat (length d) <= MAX_EVENT_HISTORY_IN_STATE_MACHINE ->
  od_get (sm_add d event_id event_json) event_id = Some event_json.
Proof. apply od_get_sm_add. Qed.

End StoreExtra.

Module StoreUnbounded.
Import Json Store StoreFacts.

Lemma fix_setitem_nonpositive m (d : odict) k v :
  m <= 0 -> fix_setitem m d k v = od_setitem d k v.
Proof.
  intros Hm. unfold fix_setitem.
  by replace (0 <? m) with false by (symmetry; apply Z.ltb_ge; lia).
Qed.

(** [FixSizeOrderedDict] with its default [max_size = 0] (or any
    non-positive bound) never evicts: distinct keys all stay, in order. *)
Theorem fix_setitem_unbounded (m : Z) (adds : list (string * dict)) :
  m <= 0 -> NoDup (map fst adds) ->
  keys (fold_left (fun s kv => fix_setitem m s kv.1 kv.2) adds []) = map fst adds.
Proof.
  intros Hm. induction adds as [|[k v] adds IH] using rev_ind; [done|].
  rewrite map_app, fold_left_app. simpl. intros Hnd.
  apply NoDup_app in Hnd as (Hnd & Hk & _).
  specialize (IH Hnd).
  rewrite fix_setitem_nonpositive by done. unfold od_setitem.
  destruct (od_mem _ k) eqn:E.
  - apply od_mem_spec in E. rewrite IH in E. exfalso.
    apply (Hk k); [by apply list_elem_of_In | by left].
  - unfold keys in *. by rewrite map_app, IH.
Qed.

End StoreUnbounded.

Module FrameExtra.
Import Frame FrameFacts FrameClaims.

(** One uncompressed frame with a consistent header, inside a buffer. *)
Lemma decode_plain_frame zd (pre hdr p post : list Byte.byte) pt tag rsv f :
  unpack_header hdr = Ok (pt, tag, 0, rsv, Z.of_nat (length p)) ->
  ProtectWSPayloadFormat_of tag = Ok f ->
  decode_ws_frame zd (pre ++ hdr ++ p ++ post) (Z.of_nat (length pre))
    = Ok (p, f, Z.of_nat (length pre) + 8 + Z.of_nat (length p)).
Proof.
  intros Hh Hf. pose proof (unpack_header_length _ _ Hh) as Hl.
  assert (Hh' : unpack_header (py_slice (pre ++ hdr ++ p ++ post)
                  (Z.of_nat (length pre)) (Z.of_nat (length pre) + 8))
                = Ok (pt, tag, 0, rsv, Z.of_nat (length p))).
  { by rewrite header_slice. }
  rewrite (decode_ws_frame_eq zd _ _ pt tag 0 rsv _ Hh'). cbv zeta.
  assert (Hp : py_slice (pre ++ hdr ++ p ++ post) (Z.of_nat (length pre) + 8)
                 (Z.of_nat (length pre) + 8 + Z.of_nat (length p)) = p).
  { rewrite app_assoc.
    pose proof (py_slice_mid (pre ++ hdr) p post) as E.
    rewrite length_app, Nat2Z.inj_add, Hl in E. exact E. }
  rewrite Hp. simpl. by rewrite Hf.
Qed.

(** Back-to-back frames (an action frame then a data frame): decoding at
    the position the first decode returns yields the second frame. *)
Theorem decode_ws_frame_back_to_back zd (pre h1 p1 h2 p2 post : list Byte.byte)
  pt1 tag1 rsv1 f1 pt2 tag2 rsv2 f2 :
  unpack_header h1 = Ok (pt1, tag1, 0, rsv1, Z.of_nat (length p1)) ->
  ProtectWSPayloadFormat_of tag1 = Ok f1 ->
  unpack_header h2 = Ok (pt2, tag2, 0, rsv2, Z.of_nat (length p2)) ->
  ProtectWSPayloadFormat_of tag2 = Ok f2 ->
  let buf := pre ++ h1 ++ p1 ++ h2 ++ p2 ++ post in
  exists next,
    decode_ws_frame zd buf (Z.of_nat (length pre)) = Ok (p1, f1, next) /\
    decode_ws_frame zd buf next = Ok (p2, f2, Z.of_nat (length buf - length post)).
Proof.
  intros H1 F1 H2 F2 buf.
  pose proof (unpack_header_length _ _ H1) as L1.
  pose proof (unpack_header_length _ _ H2) as L2.
  exists (Z.of_nat (length pre) + 8 + Z.of_nat (length p1)). split.
  - exact (decode_plain_frame zd pre h1 p1 (h2 ++ p2 ++ post) pt1 tag1 rsv1 f1 H1 F1).
  - assert (Hb : buf = (pre ++ h1 ++ p1) ++ h2 ++ p2 ++ post)
      by (unfold buf; by rewrite <- !app_assoc).
    rewrite Hb.
    replace (Z.of_nat (length pre) + 8 + Z.of_nat (length p1))
      with (Z.of_nat (length (pre ++ h1 ++ p1))) by (rewrite !length_app; lia).
    rewrite (decode_plain_frame zd _ h2 p2 post pt2 tag2 rsv2 f2 H2 F2).
    f_equal. f_equal. rewrite !length_app. lia.
Qed.

(** A failing decompression is reported as [zlib.error], before the
    format tag is looked at. *)
Theorem decode_ws_frame_zlib_error_first zd frame position pt tag defl rsv size :
  unpack_header (py_slice frame position (position + 8)) = Ok (pt, tag, defl, rsv, size) ->
  defl <> 0 ->
  zd (py_slice frame (position + 8) (position + 8 + size)) = None ->
  decode_ws_frame zd frame position = Error ZlibError.
Proof.
  intros Hh Hd Hz. rewrite (decode_ws_frame_eq zd _ _ pt tag defl rsv size Hh). cbv zeta.
  replace (negb (defl =? 0)) with true by (symmetry; apply negb_true_iff, Z.eqb_neq; done).
  by rewrite Hz.
Qed.

End FrameExtra.

Module IngestExtra.
Import Json Projector Store Ingest StoreFacts StoreExtra.

(** A malformed envelope raises before the store is touched:
    a missing [modelKey] raises KeyError; a [modelKey] other than
    ["event"] raises ValueError whatever [action] and [id] hold; then a
    missing [action] or [id] raises KeyError; an action other than
    [add] and [update] raises ValueError. *)
Theorem event_from_ws_frames_bad_envelope :
  forall fromtimestamp (sm : odict) minimum_score (aj dj : dict),
  (aj !! "modelKey" = None ->
     event_from_ws_frames fromtimestamp sm minimum_score aj dj = (sm, Error KeyError)) /\
  (forall mk, aj !! "modelKey" = Some mk -> mk <> JStr "event" ->
     event_from_ws_frames fromtimestamp sm minimum_score aj dj = (sm, Error ValueError)) /\
  (aj !! "modelKey" = Some (JStr "event") -> aj !! "action" = None ->
     event_from_ws_frames fromtimestamp sm minimum_score aj dj = (sm, Error KeyError)) /\
  (aj !! "modelKey" = Some (JStr "event") -> aj !! "id" = None ->
     event_from_ws_frames fromtimestamp sm minimum_score aj dj = (sm, Error KeyError)) /\
  (forall action eid, aj !! "modelKey" = Some (JStr "event") ->
     aj !! "action" = Some action -> aj !! "id" = Some eid ->
     action <> JStr "add" -> action <> JStr "update" ->
     event_from_ws_frames fromtimestamp sm minimum_score aj dj = (sm, Error ValueError)).
Proof.
  intros fromtimestamp sm minimum_score aj dj.
  unfold event_from_ws_frames, getitem.
  split; [|split; [|split; [|split]]].
  - intros Hm. by rewrite Hm.
  - intros mk Hm Hne. rewrite Hm.
    replace (is_str mk "event") with false; [done|].
    destruct mk; try done. simpl. symmetry. apply String.eqb_neq. congruence.
  - intros Hm Ha. by rewrite Hm, Ha.
  - intros Hm Hi. rewrite Hm, Hi. simpl. by destruct (aj !! "action").
  - intros action eid Hm Ha Hi Hadd Hupd. rewrite Hm, Ha, Hi. simpl.
    replace (is_str action "add") with false
      by (destruct action; try done; symmetry; apply String.eqb_neq; congruence).
    replace (is_str action "update") with false
      by (destruct action; try done; symmetry; apply String.eqb_neq; congruence).
    done.
Qed.




(** Ingesting a frame keeps the store within its bound of 512 items and
    its ids distinct, whatever the frame, including when it raises. *)
Theorem event_from_ws_frames_store_invariant fromtimestamp (sm : odict) minimum_score (aj dj : dict) :
  Z.of_nat (length sm) <= MAX_EVENT_HISTORY_IN_STATE_MACHINE ->
  NoDup (keys sm) ->
  let sm' := (event_from_ws_frames fromtimestamp sm minimum_score aj dj).1 in
  Z.of_nat (length sm') <= MAX_EVENT_HISTORY_IN_STATE_MACHINE /\ NoDup (keys sm').
Proof.
  intros Hl Hnd sm'.
  assert (Hsm : sm' = sm \/ (exists k, sm' = sm_add sm k dj) \/
                (exists k, sm' = (sm_update sm k dj).1)).
  { unfold sm', event_from_ws_frames.
    destruct (getitem aj "modelKey") as [mk|e]; [|by left].
    destruct (negb (is_str mk "event")); [by left|].
    destruct (getitem aj "action") as [action|e]; [|by left].
    destruct (getitem aj "id") as [eid|e]; [|by left].
    cbv zeta.
    destruct (is_str action "add").
    - destruct (get dj "camera"); try (left; reflexivity);
        (destruct (as_key eid) as [k|]; simpl; [|by left]);
        right; left; by exists k.
    - destruct (is_str action "update"); [|by left].
      destruct (as_key eid) as [k|]; simpl; [|by left].
      destruct (sm_update sm k dj) as [sm1 ev] eqn:E.
      assert (sm1 = (sm_update sm k dj).1) as Hs by (by rewrite E).
      destruct ev as [ev|]; [destruct (bool_decide _)|]; simpl;
        right; right; exists k; done. }
  destruct Hsm as [->|[[k ->]|[k ->]]]; [done| |].
  - split; [by apply fix_setitem_bound | by apply sm_add_nodup].
  - rewrite sm_update_keys. split; [|done].
    unfold sm_update. destruct (od_get sm k); simpl; [|done].
    by rewrite length_od_assign.
Qed.

End IngestExtra.

Module ProjectorExtra.
Import Json Projector ProjectorFacts.

(** The two branches of [process_event]: a motion or smart-detect event
    sets [last_motion] to its start and is never ringing; any other event
    sets [last_ring] to its start and is never [event_on]. So a result is
    never both on and ringing, and has exactly one of the two keys. *)
Theorem process_event_branch_shape fromtimestamp (ev : dict) minimum_score ring_interval pe :
  process_event fromtimestamp ev minimum_score ring_interval = Ok pe ->
  let motion := is_str (get ev "type") EVENT_MOTION
                || is_str (get ev "type") EVENT_SMART_DETECT_ZONE in
  (motion = true /\ last_motion pe = Some (event_start pe) /\
     last_ring pe = None /\ event_ring_on pe = false) \/
  (motion = false /\ last_ring pe = Some (event_start pe) /\
     last_motion pe = None /\ event_on pe = false).
Proof.
  intros H motion. unfold process_event in H. bind_inv H.
  destruct a1 as [[[on ring_on] lm] lr]. injection H as <-. simpl. unfold motion.
  destruct (_ || _); bind_inv E1; injection E1 as <- <- <- <-.
  - left. auto.
  - right. auto.
Qed.

(** A motion or smart-detect event does not depend on [ring_interval];
    any other event does not depend on [minimum_score]. *)
Theorem process_event_unused_parameter fromtimestamp (ev : dict) :
  (is_str (get ev "type") EVENT_MOTION || is_str (get ev "type") EVENT_SMART_DETECT_ZONE
     = true ->
   forall minimum_score r1 r2,
     process_event fromtimestamp ev minimum_score r1 = process_event fromtimestamp ev minimum_score r2) /\
  (is_str (get ev "type") EVENT_MOTION || is_str (get ev "type") EVENT_SMART_DETECT_ZONE
     = false ->
   forall m1 m2 ring_interval,
     process_event fromtimestamp ev m1 ring_interval = process_event fromtimestamp ev m2 ring_interval).
Proof.
  split.
  - intros Hm minimum_score r1 r2. unfold process_event. by rewrite Hm.
  - intros Hm m1 m2 ring_interval. unfold process_event. by rewrite Hm.
Qed.

(** [start] is formatted first: when it is truthy and [_process_timestamp]
    raises on it, [process_event] raises that error whatever the rest of
    the event holds; and [_process_timestamp] raises OverflowError, before
    any formatting, when [int(start) / 1000] is beyond the doubles. *)
Theorem process_event_start_error :
  (forall fromtimestamp (ev : dict) minimum_score ring_interval e,
     truthy (get ev "start") = true ->
     _process_timestamp fromtimestamp (get ev "start") = Error e ->
     process_event fromtimestamp ev minimum_score ring_interval = Error e) /\
  (forall fromtimestamp z,
     Float64.int_truediv z 1000 = None ->
     _process_timestamp fromtimestamp (JInt z) = Error OverflowError).
Proof.
  split.
  - intros fromtimestamp ev minimum_score ring_interval e Ht He.
    unfold process_event. rewrite Ht, He. reflexivity.
  - intros fromtimestamp z Hz. unfold _process_timestamp. simpl. by rewrite Hz.
Qed.

End ProjectorExtra.

Module CameraFacts.
Import Camera.

Lemma cbind_COk {A B} (r : cresult A) (k : A -> cresult B) b :
  cbind r k = COk b <-> exists a, r = COk a /\ k a = COk b.
Proof.
  destruct r as [a|e]; simpl; split.
  - intros H. by exists a.
  - by intros (a' & [= ->] & H).
  - discriminate.
  - by intros (a' & ? & _).
Qed.

(** Split a successful [let+] chain in hypothesis [H]. *)
Ltac cbind_inv H :=
  repeat match type of H with
  | cbind _ _ = COk _ =>
      let a := fresh "a" in let Ea := fresh "E" in
      apply cbind_COk in H; destruct H as (a & Ea & H)
  end.

(** Run both sides of an equation through the same reads. *)
Ltac same_reads :=
  repeat (match goal with |- context [cbind ?r _] => destruct r; cbn [cbind] end).

(** With [include_events], [process_camera] is the result without it,
    followed by the reads of [lastMotion] and [lastRing]. *)
Lemma process_camera_include_events fmt repr sid host camera :
  process_camera fmt repr sid host camera true =
    let+ u := process_camera fmt repr sid host camera false in
    let+ lm := item camera "lastMotion" in
    let+ last_motion := timestamp_or_none fmt lm in
    let+ lr := get_default camera "lastRing" CNull in
    let+ last_ring := timestamp_or_none fmt lr in
    COk (set_events u (Some last_motion) (Some last_ring)).
Proof. unfold process_camera. same_reads; reflexivity. Qed.

(** A successful [process_camera] read [channels] and took its [rtsp]
    from the loop over them. *)
Lemma process_camera_channels fmt repr sid host camera ie u ch :
  process_camera fmt repr sid host camera ie = COk u ->
  item camera "channels" = COk ch ->
  iter_channels repr host ch = COk (rtsp u).
Proof.
  intros H Hch. unfold process_camera in H. cbind_inv H.
  rewrite Hch in *. repeat match goal with
  | E : COk _ = COk _ |- _ => injection E as <-
  end.
  destruct ie; [cbind_inv H|]; injection H as <-; done.
Qed.

(** Replace every read [item cam' k] or [get_default cam' k d] in the goal
    by the equation [Hi k] or [Hg k d], for the keys whose side
    conditions [discriminate] proves. *)
Ltac rewrite_reads cam' Hi Hg :=
  repeat match goal with
  | |- context [item cam' ?k] => rewrite (Hi k) by discriminate
  | |- context [get_default cam' ?k ?d] => rewrite (Hg k d) by discriminate
  end.

Lemma assoc_set_key_ne (o : list (string * cval)) k k' v :
  k' <> k ->
  assoc (map (fun kv => if String.eqb kv.1 k then (k, v) else kv) o) k' = assoc o k'.
Proof.
  intros Hne. induction o as [|[k0 v0] o IH]; simpl; [done|].
  destruct (String.eqb_spec k0 k) as [->|]; simpl.
  - destruct (String.eqb_spec k k'); [congruence|done].
  - destruct (String.eqb k0 k'); [done|exact IH].
Qed.

(** [set_key k] changes only what a read of [k] gives. *)
Lemma set_key_reads k v camera :
  (forall k', k' <> k -> item (set_key k v camera) k' = item camera k') /\
  (forall k' d, k' <> k -> get_default (set_key k v camera) k' d = get_default camera k' d).
Proof.
  split; intros k' *; destruct camera; simpl; try done;
    intros Hne; by rewrite assoc_set_key_ne.
Qed.

(** The loop skips channels whose flag is falsy. *)
Lemma rtsp_loop_skip repr host pre rest :
  Forall (fun ch => exists e, item ch "isRtspEnabled" = COk e /\ ctruthy e = false) pre ->
  rtsp_loop repr host (pre ++ rest) = rtsp_loop repr host rest.
Proof.
  induction 1 as [|ch pre (e & He & Hf) _ IH]; [done|].
  simpl. rewrite He. cbn [cbind]. by rewrite Hf.
Qed.

(** The first channel whose flag is truthy gives the URL; the channels
    after it are not looked at. *)
Lemma rtsp_loop_first repr host pre c post e alias :
  Forall (fun ch => exists e, item ch "isRtspEnabled" = COk e /\ ctruthy e = false) pre ->
  item c "isRtspEnabled" = COk e -> ctruthy e = true ->
  item c "rtspAlias" = COk alias ->
  rtsp_loop repr host (pre ++ c :: post)
    = COk (Some (String.append "rtsp://"
                   (String.append host (String.append ":7447/" (py_str repr alias))))).
Proof.
  intros Hpre He Ht Ha. rewrite rtsp_loop_skip by done.
  simpl. rewrite He. cbn [cbind]. by rewrite Ht, Ha.
Qed.

End CameraFacts.

Module CameraExtra.
Import Camera CameraFacts.

(** The RTSP URL is that of the first channel whose [isRtspEnabled] is
    truthy, and the loop stops there: two cameras that answer every other
    read alike, and whose channel lists agree up to that channel, give
    the same result whatever channels follow it (those are never read). *)
Theorem process_camera_rtsp fmt repr sid host cam1 cam2 ie pre c post1 post2 e alias :
  (forall k, k <> "channels" -> item cam2 k = item cam1 k) ->
  (forall k d, k <> "channels" -> get_default cam2 k d = get_default cam1 k d) ->
  item cam1 "channels" = COk (CList (pre ++ c :: post1)) ->
  item cam2 "channels" = COk (CList (pre ++ c :: post2)) ->
  Forall (fun ch => exists e, item ch "isRtspEnabled" = COk e /\ ctruthy e = false) pre ->
  item c "isRtspEnabled" = COk e -> ctruthy e = true ->
  item c "rtspAlias" = COk alias ->
  process_camera fmt repr sid host cam2 ie = process_camera fmt repr sid host cam1 ie /\
  (forall u, process_camera fmt repr sid host cam1 ie = COk u ->
     rtsp u = Some (String.append "rtsp://"
                      (String.append host (String.append ":7447/" (py_str repr alias))))).
Proof.
  intros Hi Hg H1 H2 Hpre He Ht Ha. split.
  - unfold process_camera. rewrite_reads cam2 Hi Hg. rewrite H1, H2. cbn [cbind].
    unfold iter_channels. rewrite !(rtsp_loop_first repr host pre c _ e alias) by done.
    reflexivity.
  - intros u H.
    pose proof (process_camera_channels _ _ _ _ _ _ _ _ H H1) as Hl.
    unfold iter_channels in Hl. rewrite (rtsp_loop_first repr host pre c _ e alias) in Hl
      by done.
    by injection Hl.
Qed.


Theorem rtsp_loop_edges repr host pre :
  Forall (fun ch => exists e, item ch "isRtspEnabled" = COk e /\ ctruthy e = false) pre ->
  rtsp_loop repr host pre = COk None /\
  (forall c post, item c "isRtspEnabled" = CErr CKeyError ->
     rtsp_loop repr host (pre ++ c :: post) = CErr CKeyError).
Proof.
  intros Hpre. split.
  - rewrite <- (app_nil_r pre). rewrite rtsp_loop_skip by done. reflexivity.
  - intros c post Hc. rewrite rtsp_loop_skip by done. simpl. by rewrite Hc.
Qed.



(** [video_mode] is never falsy (it falls back to ["default"]) and
    [hdr_mode] is truthy or [False] (never [None]). *)
Theorem process_camera_mode_defaults fmt repr sid host camera ie u :
  process_camera fmt repr sid host camera ie = COk u ->
  ctruthy (video_mode u) = true /\ (ctruthy (hdr_mode u) = true \/ hdr_mode u = CBool false).
Proof.
  intros H.
  assert (Hb : exists u0, process_camera fmt repr sid host camera false = COk u0 /\
                          video_mode u = video_mode u0 /\ hdr_mode u = hdr_mode u0).
  { destruct ie; [|by exists u].
    rewrite process_camera_include_events in H. cbind_inv H.
    exists a. split; [done|]. by injection H as <-. }
  destruct Hb as (u0 & H0 & -> & ->).
  unfold process_camera in H0. cbind_inv H0. injection H0 as <-. simpl.
  unfold py_or.
  repeat match goal with
  | |- context [if ctruthy ?v then _ else _] => destruct (ctruthy v) eqn:?
  end; auto.
Qed.

(** [featureFlags] is read with [.get], yet a camera without it (or with
    [null]) is never processed: [None.get] raises AttributeError. *)
Theorem process_camera_needs_feature_flags fmt repr sid host camera ie :
  get_default camera "featureFlags" CNull = COk CNull ->
  exists e, process_camera fmt repr sid host camera ie = CErr e.
Proof.
  intros Hf. destruct (process_camera fmt repr sid host camera ie) as [u|e] eqn:H;
    [exfalso|by exists e].
  unfold process_camera in H. cbind_inv H.
  rewrite Hf in *. repeat match goal with
  | E : COk _ = COk _ |- _ => injection E as <-
  end.
  match goal with E : get_default CNull _ _ = COk _ |- _ => discriminate E end.
Qed.

End CameraExtra.

Module ExtraWitnesses.
Import Json Projector Store Ingest Samples StoreSamples Frame StoreExtra StoreUnbounded
  FrameExtra IngestExtra ProjectorExtra.

(** An update of "e1" leaves the record of "e2" alone. *)
Lemma sm_update_other_ids_witness :
  od_get (sm_update [("e1", ∅); ("e2", ended_ring)] "e1" ended_motion).1 "e2"
    = od_get [("e1", ∅); ("e2", ended_ring)] "e2".
Proof.
  apply (sm_update_other_ids [("e1", ∅); ("e2", ended_ring)] "e1" "e2" ended_motion).
  discriminate.
Defined.

(** Adding "e2" to a store holding "e1" puts it last. *)
Lemma sm_add_fresh_witness :
  keys (sm_add [("e1", ∅)] "e2" ended_motion) = keys [("e1", ∅)] ++ ["e2"].
Proof.
  apply (proj1 (sm_add_fresh [("e1", ∅)] "e2" ended_motion
                  ltac:(simpl; intros [H|[]]; discriminate))).
  vm_compute. reflexivity.
Defined.

(** Adding "e2" to the full store of 512 events: "0" is evicted and the
    new record is found. *)
Lemma sm_add_lookup_witness :
  Z.of_nat (length full_store) = MAX_EVENT_HISTORY_IN_STATE_MACHINE /\
  od_get (sm_add full_store "e2" ended_motion) "0" = None /\
  od_get (sm_add full_store "e2" ended_motion) "e2" = Some ended_motion.
Proof.
  split; [vm_compute; reflexivity|]. split; [vm_compute; reflexivity|].
  apply (sm_add_lookup full_store "e2" ended_motion). vm_compute. discriminate.
Defined.

(** Three distinct keys into a [FixSizeOrderedDict] of the default size 0. *)
Lemma fix_setitem_unbounded_witness :
  keys (fold_left (fun s kv => fix_setitem 0 s kv.1 kv.2)
          [("a", ∅); ("b", ended_motion); ("c", ∅)] [])
    = map fst [("a", ∅); ("b", ended_motion); ("c", ∅)].
Proof.
  apply (fix_setitem_unbounded 0 [("a", ∅); ("b", ended_motion); ("c", ∅)]).
  - lia.
  - apply (bool_decide_unpack _). vm_compute. exact I.
Defined.

(** A JSON frame [41 42] followed by a UTF8String frame [43]. *)
Lemma decode_ws_frame_back_to_back_witness :
  let buf := [] ++ bytes_of [1;1;0;0;0;0;0;2] ++ bytes_of [65;66]
                ++ bytes_of [1;2;0;0;0;0;0;1] ++ bytes_of [67] ++ [] in
  exists next,
    decode_ws_frame (fun _ => None) buf (Z.of_nat (length (@nil Byte.byte)))
      = Ok (bytes_of [65;66], JSON, next) /\
    decode_ws_frame (fun _ => None) buf next
      = Ok (bytes_of [67], UTF8String,
            Z.of_nat (length buf - length (@nil Byte.byte))).
Proof.
  exact (decode_ws_frame_back_to_back (fun _ => None) [] (bytes_of [1;1;0;0;0;0;0;2])
           (bytes_of [65;66]) (bytes_of [1;2;0;0;0;0;0;1]) (bytes_of [67]) []
           1 1 0 JSON 1 2 0 UTF8String
           ltac:(vm_compute; reflexivity) ltac:(reflexivity)
           ltac:(vm_compute; reflexivity) ltac:(reflexivity)).
Defined.

(** A deflated frame with the unknown tag 9 whose payload does not
    inflate: zlib.error, not ValueError. *)
Lemma decode_ws_frame_zlib_error_first_witness :
  decode_ws_frame (fun _ => None) (bytes_of [1;9;1;0;0;0;0;1;65]) 0 = Error ZlibError.
Proof.
  apply (decode_ws_frame_zlib_error_first (fun _ => None) _ _ 1 9 1 0 1).
  - vm_compute. reflexivity.
  - discriminate.
  - reflexivity.
Defined.


(** Two frames: the add of "e2" to the full store, which evicts "0"; and
    the add of a ring with an end and no start to a store holding "e1",
    which stores the ring and then raises TypeError ([float(None)]). *)
Lemma event_from_ws_frames_store_invariant_witness :
  (let sm' := (event_from_ws_frames sample_fromtimestamp full_store 50 add_e2 ended_ring).1 in
   Z.of_nat (length sm') <= MAX_EVENT_HISTORY_IN_STATE_MACHINE /\ NoDup (keys sm')) /\
  (let sm' := (event_from_ws_frames sample_fromtimestamp [("e1", ∅)] 50 add_e2
                 headless_ring).1 in
   Z.of_nat (length sm') <= MAX_EVENT_HISTORY_IN_STATE_MACHINE /\ NoDup (keys sm')) /\
  od_get (event_from_ws_frames sample_fromtimestamp full_store 50 add_e2
            ended_ring).1 "0" = None /\
  event_from_ws_frames sample_fromtimestamp [("e1", ∅)] 50 add_e2 headless_ring
    = ([("e1", ∅); ("e2", headless_ring)], Error TypeError).
Proof.
  split; [|split; [|split]].
  - apply (event_from_ws_frames_store_invariant sample_fromtimestamp full_store 50
             add_e2 ended_ring).
    + vm_compute. discriminate.
    + apply (bool_decide_unpack _). vm_compute. exact I.
  - apply (event_from_ws_frames_store_invariant sample_fromtimestamp [("e1", ∅)] 50
             add_e2 headless_ring).
    + vm_compute. discriminate.
    + apply (bool_decide_unpack _). vm_compute. exact I.
  - vm_compute. reflexivity.
  - vm_compute. reflexivity.
Defined.

(** A motion event starting at [10^400] ms: the start overflows. *)
Lemma process_event_start_error_witness :
  truthy (get (<["start" := JInt (10 ^ 400)]> ended_motion) "start") = true /\
  _process_timestamp sample_fromtimestamp (JInt (10 ^ 400)) = Error OverflowError /\
  process_event sample_fromtimestamp (<["start" := JInt (10 ^ 400)]> ended_motion) 50 (-1)
    = Error OverflowError.
Proof.
  destruct process_event_start_error as [H1 H2].
  assert (Ho : _process_timestamp sample_fromtimestamp (JInt (10 ^ 400)) = Error OverflowError)
    by (apply H2; vm_compute; reflexivity).
  split; [reflexivity|]. split; [exact Ho|].
  apply H1; [reflexivity|]. exact Ho.
Defined.

(** The ended ring takes the ring branch. *)
Lemma process_event_branch_shape_witness :
  exists pe, process_event sample_fromtimestamp ended_ring 50 (-1) = Ok pe /\
    let motion := is_str (get ended_ring "type") EVENT_MOTION
                  || is_str (get ended_ring "type") EVENT_SMART_DETECT_ZONE in
    (motion = true /\ last_motion pe = Some (event_start pe) /\
       last_ring pe = None /\ event_ring_on pe = false) \/
    (motion = false /\ last_ring pe = Some (event_start pe) /\
       last_motion pe = None /\ event_on pe = false).
Proof.
  destruct (process_event sample_fromtimestamp ended_ring 50 (-1)) as [pe|e] eqn:E;
    [|vm_compute in E; discriminate].
  exists pe. split; [reflexivity|].
  exact (process_event_branch_shape sample_fromtimestamp ended_ring 50 (-1) pe E).
Defined.

End ExtraWitnesses.

Module CameraWitnesses.
Import Camera CameraFacts CameraExtra.

(** The sample doorbell: RTSP off on channel 0, on for channel 1 ("a1").
    Replacing channel 2, which lacks the flag, by the int 7 (which has no
    keys at all) changes nothing. *)
Lemma process_camera_rtsp_witness :
  (process_camera sample_format (fun _ => "") "sid" "nvr"
     (set_key "channels"
        (CList [CObj [("isRtspEnabled", CBool false); ("rtspAlias", CStr "a0")];
                CObj [("isRtspEnabled", CBool true); ("rtspAlias", CStr "a1")];
                CInt 7]) sample_doorbell) true
   = process_camera sample_format (fun _ => "") "sid" "nvr" sample_doorbell true /\
   (forall u, process_camera sample_format (fun _ => "") "sid" "nvr" sample_doorbell true
                = COk u ->
      rtsp u = Some (String.append "rtsp://"
                       (String.append "nvr" (String.append ":7447/"
                          (py_str (fun _ => "") (CStr "a1"))))))) /\
  exists u, process_camera sample_format (fun _ => "") "sid" "nvr" sample_doorbell true = COk u.
Proof.
  split.
  - destruct (set_key_reads "channels"
                (CList [CObj [("isRtspEnabled", CBool false); ("rtspAlias", CStr "a0")];
                        CObj [("isRtspEnabled", CBool true); ("rtspAlias", CStr "a1")];
                        CInt 7]) sample_doorbell) as [Hi Hg].
    apply (process_camera_rtsp sample_format (fun _ => "") "sid" "nvr" sample_doorbell _ true
             [CObj [("isRtspEnabled", CBool false); ("rtspAlias", CStr "a0")]]
             (CObj [("isRtspEnabled", CBool true); ("rtspAlias", CStr "a1")])
             [CObj [("rtspAlias", CStr "a2")]] [CInt 7] (CBool true) (CStr "a1") Hi Hg).
    + reflexivity.
    + reflexivity.
    + constructor; [|constructor]. exists (CBool false). split; reflexivity.
    + reflexivity.
    + reflexivity.
    + reflexivity.
  - eexists. vm_compute. reflexivity.
Defined.

(** One channel with RTSP off: no URL, and a flagless channel after it
    raises KeyError. *)
Lemma rtsp_loop_edges_witness :
  rtsp_loop (fun _ => "") "nvr"
    [CObj [("isRtspEnabled", CBool false); ("rtspAlias", CStr "a0")]] = COk None /\
  (forall c post, item c "isRtspEnabled" = CErr CKeyError ->
     rtsp_loop (fun _ => "") "nvr"
       ([CObj [("isRtspEnabled", CBool false); ("rtspAlias", CStr "a0")]] ++ c :: post)
     = CErr CKeyError).
Proof.
  apply (rtsp_loop_edges (fun _ => "") "nvr"
           [CObj [("isRtspEnabled", CBool false); ("rtspAlias", CStr "a0")]]).
  constructor; [|constructor]. exists (CBool false). split; reflexivity.
Defined.


(** The sample doorbell's empty [videoMode] falls back to "default". *)
Lemma process_camera_mode_defaults_witness :
  exists u, process_camera sample_format (fun _ => "") "sid" "nvr" sample_doorbell false
              = COk u /\
    ctruthy (video_mode u) = true /\
    (ctruthy (hdr_mode u) = true \/ hdr_mode u = CBool false).
Proof.
  destruct (process_camera sample_format (fun _ => "") "sid" "nvr" sample_doorbell false)
    as [u|e] eqn:E; [|vm_compute in E; discriminate].
  exists u. split; [reflexivity|].
  exact (process_camera_mode_defaults sample_format (fun _ => "") "sid" "nvr" sample_doorbell
           false u E).
Defined.

(** The sample doorbell without [featureFlags]. *)
Lemma process_camera_needs_feature_flags_witness :
  exists e, process_camera sample_format (fun _ => "") "sid" "nvr" sample_no_feature_flags true
              = CErr e.
Proof.
  apply (process_camera_needs_feature_flags sample_format (fun _ => "") "sid" "nvr"
           sample_no_feature_flags true).
  vm_compute. reflexivity.
Defined.

End CameraWitnesses.
